(** * SlideShifter: the slide-reconstruction pipeline

    A shallow embedding of [services/pptBuilder] ([cropImage],
    [generateImagePptx], [generatePptx]) and of the batch controller in
    [App.tsx] ([handleFileAccepted], [createSimplePptx], [analyzeSlides]).

    Conventions of the embedding.
    - In the model of the pipeline a JavaScript [number] is an exact
      rational ([Q]); the pixel size of a decoded image is an integer
      ([Z]).  What depends on the rounding of IEEE 754 doubles, the success
      of a crop and the size of its result, is stated over a second model
      of [cropImage] on binary64 numbers ([cropImage64]).
    - A rejected promise or a thrown exception is the [Throw] case of [Res].
    - Every call that leaves the program (the presentation writer, the
      console, the image decoder) is recorded as an [Event]; a computation
      is a pair of the events it performed and of its result ([M]).
    - The collaborators whose answers the program cannot predict (pdf.js,
      the Gemini client, the image decoder, [writeFile]) are the fields of
      a [World]. *)

From Stdlib Require Import Floats.
From Stdlib Require Import QArith Qminmax Qround Lqa ZArith Lia Bool.
From Stdlib Require Import String Ascii DecimalString.
From stdpp Require Import base list.

Local Open Scope string_scope.
Local Open Scope list_scope.

(** ** types.ts *)

Inductive AppState :=
  IDLE | PROCESSING_PDF | ANALYZING_SLIDES | GENERATING_PPT | COMPLETED | ERROR.

Inductive ConversionMode := AI_EXTRACT | IMAGE_ONLY.

(** [ymin, xmin, ymax, xmax], nominally on a 0-100 scale. *)
Definition Box : Type := Q * Q * Q * Q.

Record SlideFigure := {
  boundingBox : Box;
  description : string
}.

Inductive LayoutType :=
  TITLE_ONLY | TITLE_AND_CONTENT | TWO_COLUMN | BLANK | SECTION_HEADER.

Record SlideContent := {
  title : string;
  content : list string;
  layoutType : LayoutType;
  backgroundColor : option string;
  textColor : option string;
  notes : option string;
  figures : option (list SlideFigure)
}.

Inductive SlideStatus := pending | analyzing | done | error.

Record ProcessedSlide := {
  originalImage : string;
  analysis : option SlideContent;
  status : SlideStatus
}.

(** ** Exceptions, events and the computation type *)

(** The [Error] values the program creates, by the message they carry, and
    the ones a collaborator throws. *)
Inductive JsError :=
| InvalidBoundingBox (box : Box)    (* `Invalid bounding box: [..]` *)
| DecodeTimeout                     (* "Image load timed out in cropImage" *)
| NoCanvasContext                   (* 'Could not get canvas context' *)
| DegenerateCrop (safeW safeH : Q)  (* `Invalid calculated crop dimensions` *)
| ImageLoadFailed                   (* "Failed to load image for cropping" *)
| NoSlidesAnalyzed                  (* "No slides were successfully analyzed." *)
| External (msg : string).          (* thrown by pdf.js, Gemini or pptxgenjs *)

Inductive Res (A : Type) :=
| Ok (a : A)
| Throw (e : JsError).
Arguments Ok {A} a.
Arguments Throw {A} e.

(** A length given to pptxgenjs: a number (inches) or a percentage string. *)
Inductive Coord := Inch (q : Q) | Pct (q : Q).

Inductive Align := AlignLeft | AlignCenter.
Inductive VAlign := VTop.

Record TextOpts := {
  tx : Coord; ty : Coord; tw : Coord; th : Coord;
  fontSize : Z;
  bold : bool;
  color : string;
  align : option Align;
  bullet : bool;
  valign : option VAlign
}.

(** The first argument of [addText]: a string, or a list of runs each
    carrying [breakLine: true]. *)
Inductive TextBody := Plain (s : string) | Runs (l : list string).

(** Image data handed to [addImage]: the page raster itself, or the PNG
    rendered by [cropImage] from the source rectangle drawn on the canvas. *)
Inductive ImageData :=
| PageRaster (base64 : string)
| CroppedPng (base64 : string) (sx sy sw sh : Q).

(** Calls on the pptxgenjs presentation and on its current slide. *)
Inductive SinkOp :=
| NewPptx
| SetAuthor (s : string)
| SetCompany (s : string)
| SetTitle (s : string)
| AddSlide
| SetBackground (color : string)
| AddText (body : TextBody) (opts : TextOpts)
| AddImage (data : ImageData) (x y w h : Coord)
| AddNotes (s : string)
| WriteFile (fileNamePrefix : string).

Inductive Event :=
| EvCropCall (base64 : string) (box : Box)
    (* cropImage was entered *)
| EvImageSrc (base64 : string)
    (* img.src = base64Image: decoding starts *)
| EvDrawImage (sx sy sw sh : Q)
    (* ctx.drawImage *)
| EvSink (op : SinkOp)
    (* a call on the presentation or on its current slide *)
| EvWarnInvalidBox (box : Box)
    (* console.warn("Skipping invalid figure bounding box:", box) *)
| EvErrorFigure (e : JsError)
    (* console.error("Failed to add figure to slide:", err) *)
| EvErrorAnalyzing (slideNo : nat) (e : JsError)
    (* console.error(`Error analyzing slide ${i+1}`, err) *)
| EvErrorLogged (e : JsError).
    (* console.error(err) *)

Definition M (A : Type) : Type := list Event * Res A.

Definition ret {A} (a : A) : M A := ([], Ok a).
Definition emit (e : Event) : M unit := ([e], Ok tt).
Definition throw {A} (e : JsError) : M A := ([], Throw e).

Definition bind {A B} (m : M A) (k : A -> M B) : M B :=
  match m with
  | (t, Ok a) => let '(t', r) := k a in (t ++ t', r)
  | (t, Throw e) => (t, Throw e)
  end.

(** [try { m } catch (err) { h err }] *)
Definition tryCatch {A} (m : M A) (h : JsError -> M A) : M A :=
  match m with
  | (t, Ok a) => (t, Ok a)
  | (t, Throw e) => let '(t', r) := h e in (t ++ t', r)
  end.

Notation "x <- m ;; k" := (bind m (fun x => k))
  (at level 100, m at next level, right associativity).
Notation "m ;;; k" := (bind m (fun _ => k))
  (at level 100, right associativity).

(** ** pptBuilder: cropImage *)

(** What the browser does with [img.src = base64Image]: [onload] fires with
    the decoded size (and [getContext('2d')] gives a context or [null]),
    [onerror] fires, or neither does within the 10 s of the timer. *)
Inductive LoadResult :=
| Loaded (width height : Z) (ctx : bool)
| LoadError
| LoadTimeout.

Definition cropImage (browser : LoadResult) (base64Image : string) (box : Box)
  : M ImageData :=
  emit (EvCropCall base64Image box) ;;;
  let '(ymin, xmin, ymax, xmax) := box in
  if Qle_bool xmax xmin || Qle_bool ymax ymin then
    throw (InvalidBoundingBox box)
  else
    emit (EvImageSrc base64Image) ;;;
    match browser with
    | LoadTimeout => throw DecodeTimeout
    | LoadError => throw ImageLoadFailed
    | Loaded width height ctx =>
      if negb ctx then throw NoCanvasContext else
      let width := inject_Z width in
      let height := inject_Z height in
      let cropX := ((xmin / 100) * width)%Q in
      let cropY := ((ymin / 100) * height)%Q in
      let cropW := (((xmax - xmin) / 100) * width)%Q in
      let cropH := (((ymax - ymin) / 100) * height)%Q in
      let safeX := Qmax 0 cropX in
      let safeY := Qmax 0 cropY in
      let safeW := Qmin (width - safeX) cropW in
      let safeH := Qmin (height - safeY) cropH in
      if Qle_bool safeW 0 || Qle_bool safeH 0 then
        throw (DegenerateCrop safeW safeH)
      else
        emit (EvDrawImage safeX safeY safeW safeH) ;;;
        ret (CroppedPng base64Image safeX safeY safeW safeH)
    end.

(** ** pptBuilder: cropImage on doubles *)





    (* ctx.drawImage *)






(** ** JavaScript helpers *)

(** Truthiness of a string: every string but the empty one. *)
Definition truthy (s : string) : bool := negb (String.eqb s "").

(** [s.replace('#', '')]: the first ['#'] of [s] is removed, wherever it is. *)
Fixpoint replaceHash (s : string) : string :=
  match s with
  | EmptyString => EmptyString
  | String c r => if Ascii.eqb c "#" then r else String c (replaceHash r)
  end.

(** [Math.ceil(n / 2)] for an array length [n]. *)
Definition ceilHalf (n : nat) : nat :=
  Z.to_nat (Qceiling (inject_Z (Z.of_nat n) / 2)).

(** [xs.slice(0, k)] and [xs.slice(k)] for [0 <= k]. *)
Definition sliceTo {A} (k : nat) (xs : list A) : list A := take k xs.
Definition sliceFrom {A} (k : nat) (xs : list A) : list A := drop k xs.

(** [xs.join('\n')] *)
Definition newline : string := String (ascii_of_nat 10) EmptyString.
Definition joinLines (xs : list string) : string := String.concat newline xs.

(** [for (const x of xs) body], with the position of [x] made explicit. *)
Fixpoint forOfFrom {A} (k : nat) (xs : list A) (body : nat -> A -> M unit)
  : M unit :=
  match xs with
  | [] => ret tt
  | x :: rest => body k x ;;; forOfFrom (S k) rest body
  end.

Definition forOf {A} (xs : list A) (body : nat -> A -> M unit) : M unit :=
  forOfFrom 0 xs body.

Definition when (b : bool) (m : M unit) : M unit := if b then m else ret tt.

(** ** pptBuilder: the presentation writer *)

Definition sink (op : SinkOp) : M unit := emit (EvSink op).

(** [await pptx.writeFile({ fileName })]: the call is made, then the promise
    resolves or rejects as the world decides.  The time stamp that ends the
    file name is left out. *)
Definition writeFile (outcome : option JsError) (fileNamePrefix : string)
  : M unit :=
  sink (WriteFile fileNamePrefix) ;;;
  match outcome with
  | None => ret tt
  | Some e => throw e
  end.

Definition generateImagePptx (outcome : option JsError)
    (processedSlides : list ProcessedSlide) : M unit :=
  sink NewPptx ;;;
  sink (SetAuthor "SlideShifter App") ;;;
  sink (SetTitle "Converted Presentation (Image Mode)") ;;;
  forOf processedSlides (fun _ slideItem =>
    sink AddSlide ;;;
    sink (AddImage (PageRaster (originalImage slideItem))
                   (Inch 0) (Inch 0) (Pct 100) (Pct 100))) ;;;
  writeFile outcome "Converted_Presentation_Img_".

(** *** Text placement of [generatePptx] *)

Definition titleOpts (fgColor : string) : TextOpts :=
  {| tx := Inch 0.5; ty := Inch 0.5; tw := Pct 90; th := Inch 1;
     fontSize := 32; bold := true; color := fgColor;
     align := Some AlignCenter; bullet := false; valign := None |}.

Definition textY : Q := 1.8.
Definition textH : Coord := Pct 70.
Definition textW : Coord := Pct 90.
Definition textX : Q := 0.5.

Definition leftColOpts (fgColor : string) : TextOpts :=
  {| tx := Inch 0.5; ty := Inch textY; tw := Inch 4.2; th := textH;
     fontSize := 18; bold := false; color := fgColor;
     align := None; bullet := true; valign := None |}.

Definition rightColOpts (fgColor : string) : TextOpts :=
  {| tx := Inch 5.0; ty := Inch textY; tw := Inch 4.2; th := textH;
     fontSize := 18; bold := false; color := fgColor;
     align := None; bullet := true; valign := None |}.

Definition sectionOpts (fgColor : string) : TextOpts :=
  {| tx := Inch 1; ty := Inch 2.5; tw := Pct 80; th := Inch 3;
     fontSize := 24; bold := false; color := fgColor;
     align := Some AlignCenter; bullet := false; valign := None |}.

Definition defaultOpts (fgColor : string) : TextOpts :=
  {| tx := Inch textX; ty := Inch textY; tw := textW; th := textH;
     fontSize := 18; bold := false; color := fgColor;
     align := Some AlignLeft; bullet := true; valign := Some VTop |}.

(** The [if (slideData.backgroundColor)] statement. *)
Definition applyBackground (slideData : SlideContent) : M unit :=
  match backgroundColor slideData with
  | Some c => when (truthy c) (sink (SetBackground (replaceHash c)))
  | None => ret tt
  end.

(** [slideData.textColor ? slideData.textColor.replace('#', '') : '000000'] *)
Definition fgColorOf (slideData : SlideContent) : string :=
  match textColor slideData with
  | Some c => if truthy c then replaceHash c else "000000"
  | None => "000000"
  end.

(** The [if (slideData.title)] statement. *)
Definition addTitle (slideData : SlideContent) (fgColor : string) : M unit :=
  when (truthy (title slideData))
       (sink (AddText (Plain (title slideData)) (titleOpts fgColor))).

(** The [if / else if / else] on [slideData.layoutType]. *)
Definition addContentText (slideData : SlideContent) (fgColor : string)
  : M unit :=
  match layoutType slideData with
  | TWO_COLUMN =>
    let midPoint := ceilHalf (length (content slideData)) in
    let leftCol := sliceTo midPoint (content slideData) in
    let rightCol := sliceFrom midPoint (content slideData) in
    when (0 <? length leftCol)%nat
         (sink (AddText (Runs leftCol) (leftColOpts fgColor))) ;;;
    when (0 <? length rightCol)%nat
         (sink (AddText (Runs rightCol) (rightColOpts fgColor)))
  | SECTION_HEADER =>
    when (0 <? length (content slideData))%nat
         (sink (AddText (Plain (joinLines (content slideData)))
                        (sectionOpts fgColor)))
  | _ =>
    when (0 <? length (content slideData))%nat
         (sink (AddText (Runs (content slideData)) (defaultOpts fgColor)))
  end.

(** *** Figures of [generatePptx] *)

(** The [try { .. } catch (err) { .. }] that is the body of the loop over
    [slideData.figures]; [continue] ends the body. *)
Definition addFigure (browser : LoadResult) (originalImage : string)
    (figure : SlideFigure) : M unit :=
  tryCatch
    (let '(ymin, xmin, ymax, xmax) := boundingBox figure in
     if Qle_bool xmax xmin || Qle_bool ymax ymin then
       emit (EvWarnInvalidBox (boundingBox figure))
     else
       croppedImgData <- cropImage browser originalImage (boundingBox figure) ;;
       sink (AddImage croppedImgData
                      (Pct xmin) (Pct ymin)
                      (Pct (xmax - xmin)) (Pct (ymax - ymin))))
    (fun err => emit (EvErrorFigure err)).

(** The [if (slideData.figures && slideData.figures.length > 0)] statement;
    [imageLoad j] is what the browser does for the figure at position [j]. *)
Definition addFigures (imageLoad : nat -> LoadResult) (originalImage : string)
    (slideData : SlideContent) : M unit :=
  match figures slideData with
  | Some figs =>
    when (0 <? length figs)%nat
         (forOf figs (fun j figure =>
            addFigure (imageLoad j) originalImage figure))
  | None => ret tt
  end.

(** The [if (slideData.notes)] statement. *)
Definition addSpeakerNotes (slideData : SlideContent) : M unit :=
  match notes slideData with
  | Some n => when (truthy n) (sink (AddNotes n))
  | None => ret tt
  end.

(** The body of the loop of [generatePptx] over [processedSlides]. *)
Definition assembleSlide (imageLoad : nat -> LoadResult)
    (slideItem : ProcessedSlide) : M unit :=
  match analysis slideItem with
  | None => ret tt
  | Some slideData =>
    sink AddSlide ;;;
    applyBackground slideData ;;;
    let fgColor := fgColorOf slideData in
    addTitle slideData fgColor ;;;
    addContentText slideData fgColor ;;;
    addFigures imageLoad (originalImage slideItem) slideData ;;;
    addSpeakerNotes slideData
  end.

(** [imageLoad k j]: the browser's answer for figure [j] of the slide at
    position [k] of [processedSlides]. *)
Definition generatePptx (imageLoad : nat -> nat -> LoadResult)
    (outcome : option JsError) (processedSlides : list ProcessedSlide)
  : M unit :=
  sink NewPptx ;;;
  sink (SetAuthor "SlideShifter App") ;;;
  sink (SetCompany "Made with Gemini") ;;;
  sink (SetTitle "Converted Presentation") ;;;
  forOf processedSlides (fun k slideItem =>
    assembleSlide (imageLoad k) slideItem) ;;;
  writeFile outcome "Converted_Presentation_".

(** ** App.tsx: the batch controller *)

(** What the collaborators answer during one run. *)
Record World := {
  (** [await convertPdfToImages(file)] *)
  pdfPages : Res (list string);
  (** [await analyzeSlideImage(image)] for the slide at position [i]: the
      value the promise resolves with, or the rejection.  The value is
      what [JSON.parse] made of the response text: [None] when it is [null]
      or another falsy value ([false], [0], the empty string), which the
      tests on [analysis] do not tell apart *)
  gemini : nat -> string -> Res (option SlideContent);
  (** the image decoder, for figure [j] of the [k]-th slide handed to
      [generatePptx] *)
  imageLoad : nat -> nat -> LoadResult;
  (** [await pptx.writeFile(..)]: [None] when the promise resolves *)
  writeOutcome : option JsError
}.

(** The React state of [App]; [errorMessage] is the state variable [error]. *)
Record AppSt := {
  appState : AppState;
  slides : list ProcessedSlide;
  progress : nat * nat;          (* current, total *)
  errorMessage : option string;
  mode : ConversionMode
}.

Definition initialApp (m : ConversionMode) : AppSt :=
  {| appState := IDLE; slides := []; progress := (0, 0)%nat;
     errorMessage := None; mode := m |}.

(** The state of a run: the React state and the events performed so far. *)
Definition Run : Type := AppSt * list Event.

Definition setAppState (a : AppState) (r : Run) : Run :=
  let '(st, tr) := r in
  ({| appState := a; slides := slides st; progress := progress st;
      errorMessage := errorMessage st; mode := mode st |}, tr).

Definition setSlides (l : list ProcessedSlide) (r : Run) : Run :=
  let '(st, tr) := r in
  ({| appState := appState st; slides := l; progress := progress st;
      errorMessage := errorMessage st; mode := mode st |}, tr).

Definition setProgress (f : nat * nat -> nat * nat) (r : Run) : Run :=
  let '(st, tr) := r in
  ({| appState := appState st; slides := slides st;
      progress := f (progress st);
      errorMessage := errorMessage st; mode := mode st |}, tr).

Definition setError (e : option string) (r : Run) : Run :=
  let '(st, tr) := r in
  ({| appState := appState st; slides := slides st; progress := progress st;
      errorMessage := e; mode := mode st |}, tr).

Definition performed (t : list Event) (r : Run) : Run :=
  let '(st, tr) := r in (st, tr ++ t).

Definition withStatus (s : SlideStatus) (p : ProcessedSlide) : ProcessedSlide :=
  {| originalImage := originalImage p; analysis := analysis p; status := s |}.

Definition withAnalysis (a : option SlideContent) (s : SlideStatus)
    (p : ProcessedSlide) : ProcessedSlide :=
  {| originalImage := originalImage p; analysis := a; status := s |}.

Definition isDone (s : SlideStatus) : bool :=
  match s with done => true | _ => false end.

Definition isPresent {A} (o : option A) : bool :=
  match o with Some _ => true | None => false end.

(** [s => s.status === 'done' && s.analysis], the test of [validSlides]. *)
Definition retained (s : ProcessedSlide) : bool :=
  isDone (status s) && isPresent (analysis s).

(** [createSimplePptx], the IMAGE_ONLY branch. *)
Definition createSimplePptx (w : World) (currentSlides : list ProcessedSlide)
    (r : Run) : Run :=
  let r := setAppState GENERATING_PPT r in
  let updatedSlides := map (withStatus done) currentSlides in
  let r := setSlides updatedSlides r in
  match generateImagePptx (writeOutcome w) updatedSlides with
  | (t, Ok _) => setAppState COMPLETED (performed t r)
  | (t, Throw err) =>
    setAppState ERROR
      (setError (Some "Failed to generate PowerPoint file.")
         (performed (t ++ [EvErrorLogged err]) r))
  end.

(** One turn of the [for (let i = 0; ..)] loop of [analyzeSlides].  The index
    is below the length of [updatedSlides] in every turn, so the [None]
    branch is never taken. *)
Definition analyzeTurn (w : World) (acc : Run * list ProcessedSlide) (i : nat)
  : Run * list ProcessedSlide :=
  let '(r, updatedSlides) := acc in
  let updatedSlides := alter (withStatus analyzing) i updatedSlides in
  let r := setSlides updatedSlides r in
  match updatedSlides !! i with
  | None => (r, updatedSlides)
  | Some current =>
    let '(r, updatedSlides) :=
      match gemini w i (originalImage current) with
      | Ok analysis =>
        (r, alter (withAnalysis analysis done) i updatedSlides)
      | Throw err =>
        (performed [EvErrorAnalyzing (i + 1) err] r,
         alter (withStatus error) i updatedSlides)
      end in
    let r := setSlides updatedSlides r in
    let r := setProgress (fun prev => ((i + 1)%nat, snd prev)) r in
    (r, updatedSlides)
  end.

(** [analyzeSlides], the AI_EXTRACT branch. *)
Definition analyzeSlides (w : World) (currentSlides : list ProcessedSlide)
    (r : Run) : Run :=
  let r := setAppState ANALYZING_SLIDES r in
  let updatedSlides := currentSlides in
  let '(r, updatedSlides) :=
    fold_left (analyzeTurn w) (seq 0 (length updatedSlides))
              (r, updatedSlides) in
  let r := setAppState GENERATING_PPT r in
  let validSlides := List.filter retained updatedSlides in
  let attempt : M unit :=
    if (length validSlides =? 0)%nat then throw NoSlidesAnalyzed
    else generatePptx (imageLoad w) (writeOutcome w) validSlides in
  match attempt with
  | (t, Ok _) => setAppState COMPLETED (performed t r)
  | (t, Throw err) =>
    setAppState ERROR
      (setError (Some "Failed to generate PowerPoint file.")
         (performed (t ++ [EvErrorLogged err]) r))
  end.

(** [handleFileAccepted], started from the idle application. *)
Definition handleFileAccepted (w : World) (r : Run) : Run :=
  let r := setAppState PROCESSING_PDF r in
  let r := setError None r in
  match pdfPages w with
  | Throw err =>
    setAppState ERROR
      (setError (Some "Failed to process PDF. Please try a simpler file.")
         (performed [EvErrorLogged err] r))
  | Ok images =>
    let initialSlides :=
      map (fun img => {| originalImage := img; analysis := None;
                       status := pending |}) images in
    let r := setSlides initialSlides r in
    let r := setProgress (fun _ => (0%nat, length initialSlides)) r in
    match mode (fst r) with
    | AI_EXTRACT => analyzeSlides w initialSlides r
    | IMAGE_ONLY => createSimplePptx w initialSlides r
    end
  end.

Definition runBatch (w : World) (m : ConversionMode) : Run :=
  handleFileAccepted w (initialApp m, []).

(** The calls on the presentation writer among the events of a run. *)
Definition sinkOps (t : list Event) : list SinkOp :=
  flat_map (fun e => match e with EvSink op => [op] | _ => [] end) t.

(** ** Vocabulary of the statements *)

(** The attempt on a figure fails: the box does not pass the test of the
    figure loop, or [cropImage] rejects. *)
Definition figureFails (browser : LoadResult) (originalImage : string)
    (figure : SlideFigure) : bool :=
  let '(ymin, xmin, ymax, xmax) := boundingBox figure in
  Qle_bool xmax xmin || Qle_bool ymax ymin ||
  match snd (cropImage browser originalImage (boundingBox figure)) with
  | Ok _ => false
  | Throw _ => true
  end.

(** A failure of a figure was written to the console. *)
Definition figureFailureLogged (t : list Event) : Prop :=
  exists e, In e t /\
    match e with
    | EvWarnInvalidBox _ | EvErrorFigure _ => True
    | _ => False
    end.

(** What one turn of the loop of [analyzeSlides] leaves at position [i]. *)
Definition analyzedSlide (w : World) (i : nat) (p : ProcessedSlide)
  : ProcessedSlide :=
  match gemini w i (originalImage p) with
  | Ok a => withAnalysis a done p
  | Throw _ => withStatus error p
  end.

(** The console lines of the loop of [analyzeSlides] for the slide at
    position [i]. *)
Definition analysisLog (w : World) (i : nat) (p : ProcessedSlide)
  : list Event :=
  match gemini w i (originalImage p) with
  | Ok _ => []
  | Throw err => [EvErrorAnalyzing (i + 1) err]
  end.

(** An operation that follows the background of a slide: no new slide, no
    background, and text only in the colour [fg]. *)
Definition afterBackground (fg : string) (op : SinkOp) : Prop :=
  match op with
  | AddSlide | SetBackground _ => False
  | AddText _ opts => color opts = fg
  | _ => True
  end.

Definition pageOf (img : string) : ProcessedSlide :=
  {| originalImage := img; analysis := None; status := pending |}.

(** What the events of the presentation builder obey: [cropImage] is entered
    with boxes of positive extent only, and no figure is given up for an
    [InvalidBoundingBox]. *)
Definition cropDiscipline (e : Event) : Prop :=
  match e with
  | EvCropCall _ (ymin, xmin, ymax, xmax) => (xmin < xmax /\ ymin < ymax)%Q
  | EvErrorFigure (InvalidBoundingBox _) => False
  | _ => True
  end.

(** ** Sample inputs *)

Definition sampleFigures : list SlideFigure :=
  [ {| boundingBox := (10, 10, 40, 40)%Q; description := "chart" |};
    {| boundingBox := (10, 60, 40, 50)%Q; description := "inverted" |};
    {| boundingBox := (50, 50, 90, 90)%Q; description := "photo" |} ].

Definition sampleContent : SlideContent :=
  {| title := "Intro";
     content := ["one"; "two"; "three"];
     layoutType := TWO_COLUMN;
     backgroundColor := None;
     textColor := Some "#112233";
     notes := Some "speaker notes";
     figures := Some sampleFigures |}.

Definition sampleSlide : ProcessedSlide :=
  {| originalImage := "page-1"; analysis := Some sampleContent;
     status := done |}.

Definition sampleLoad : nat -> LoadResult := fun _ => Loaded 200 100 true.

(** Two pages; the analysis of the second one fails. *)
Definition sampleWorld : World :=
  {| pdfPages := Ok ["page-1"; "page-2"];
     gemini := fun i _ =>
       match i with
       | O => Ok (Some sampleContent)
       | S _ => Throw (External "No response from Gemini.")
       end;
     imageLoad := fun _ => sampleLoad;
     writeOutcome := None |}.

(** Three pages; every analysis fails. *)
Definition failingWorld : World :=
  {| pdfPages := Ok ["page-1"; "page-2"; "page-3"];
     gemini := fun _ _ => Throw (External "API Key is missing");
     imageLoad := fun _ => sampleLoad;
     writeOutcome := None |}.

(** One page, analysed; the file cannot be written. *)
Definition writeFailWorld : World :=
  {| pdfPages := Ok ["page-1"];
     gemini := fun _ _ => Ok (Some sampleContent);
     imageLoad := fun _ => sampleLoad;
     writeOutcome := Some (External "write failed") |}.

(** A document without pages. *)
Definition emptyWorld : World :=
  {| pdfPages := Ok [];
     gemini := fun _ _ => Ok (Some sampleContent);
     imageLoad := fun _ => sampleLoad;
     writeOutcome := None |}.

(** ** pdfUtils: convertPdfToImages *)

(** What pdf.js and the canvas do for one page: the page is rendered and
    [toDataURL] gives its JPEG, [getContext('2d')] gives [null], or
    [getPage] or [render] rejects. *)
Inductive PageResult :=
| Rendered (dataUrl : string)
| NoContext
| PageThrows (e : JsError).

(** [`${i}`] for a page number. *)
Definition decimal (n : nat) : string :=
  NilEmpty.string_of_uint (Nat.to_uint n).

(** [new Error(`Could not get canvas context for page ${i}`)] *)
Definition noContextError (i : nat) : JsError :=
  External ("Could not get canvas context for page " ++ decimal i).

(** The loop [for (let i = 1; i <= numPages; i++)], from page [i] on, with
    [remaining = numPages - i + 1] pages to go. *)
Fixpoint renderPages (page : nat -> PageResult) (i remaining : nat)
    (images : list string) : Res (list string) :=
  match remaining with
  | O => Ok images
  | S remaining' =>
    match page i with
    | Rendered base64Data =>
      renderPages page (S i) remaining' (images ++ [base64Data])
    | NoContext => Throw (noContextError i)
    | PageThrows e => Throw e
    end
  end.

(** [pdf] is what loading the document gives: its [numPages], or the
    rejection of [file.arrayBuffer()] or of [getDocument]. *)
Definition convertPdfToImages (pdf : Res nat) (page : nat -> PageResult)
  : Res (list string) :=
  match pdf with
  | Throw e => Throw e
  | Ok numPages => renderPages page 1 numPages []
  end.

(** ** geminiService: analyzeSlideImage *)

(** [Some rest] when [s] is [p] followed by [rest]. *)
Fixpoint stripPrefix (p s : string) : option string :=
  match p with
  | EmptyString => Some s
  | String a p' =>
    match s with
    | String b s' => if Ascii.eqb a b then stripPrefix p' s' else None
    | EmptyString => None
    end
  end.

(** [base64Image.replace(/^data:image\/(png|jpeg|jpg);base64,/, "")] *)
Definition cleanBase64 (base64Image : string) : string :=
  match stripPrefix "data:image/png;base64," base64Image with
  | Some rest => rest
  | None =>
    match stripPrefix "data:image/jpeg;base64," base64Image with
    | Some rest => rest
    | None =>
      match stripPrefix "data:image/jpg;base64," base64Image with
      | Some rest => rest
      | None => base64Image
      end
    end
  end.

(** What surrounds [analyzeSlideImage]: [process.env.API_KEY]; the answer of
    [ai.models.generateContent] to the image data it is sent, which is
    [response.text] (a string or [undefined]) or a rejection; and
    [JSON.parse], [None] when it throws.  The parsed value is [null] or
    another falsy value ([Some None]), or it is taken to have the shape of
    [SlideContent], as the cast of the source does. *)
Record Gemini := {
  apiKey : option string;
  generateContent : string -> Res (option string);
  jsonParse : string -> option (option SlideContent)
}.

Inductive ServiceEvent :=
| SvGenerateContent (data : string)
    (* ai.models.generateContent, with inlineData.data *)
| SvParseFailureLogged.
    (* console.error("Failed to parse Gemini response", e) *)

Definition analyzeSlideImage (g : Gemini) (base64Image : string)
  : list ServiceEvent * Res (option SlideContent) :=
  match apiKey g with
  | Some key =>
    if truthy key then
      let data := cleanBase64 base64Image in
      match generateContent g data with
      | Throw e => ([SvGenerateContent data], Throw e)
      | Ok (Some text) =>
        if truthy text then
          match jsonParse g text with
          | Some parsed => ([SvGenerateContent data], Ok parsed)
          | None =>
            ([SvGenerateContent data; SvParseFailureLogged],
             Throw (External "Failed to parse analysis results."))
          end
        else
          ([SvGenerateContent data],
           Throw (External "No response from Gemini."))
      | Ok None =>
        ([SvGenerateContent data], Throw (External "No response from Gemini."))
      end
    else ([], Throw (External "API Key is missing"))
  | None => ([], Throw (External "API Key is missing"))
  end.

(** The world in which the pages come from [convertPdfToImages] and the
    analyses from [analyzeSlideImage]; [g i] surrounds the call for the
    slide at position [i]. *)
Definition serviceWorld (pdf : Res nat) (page : nat -> PageResult)
    (g : nat -> Gemini) (load : nat -> nat -> LoadResult)
    (write : option JsError) : World :=
  {| pdfPages := convertPdfToImages pdf page;
     gemini := fun i img => snd (analyzeSlideImage (g i) img);
     imageLoad := load;
     writeOutcome := write |}.

(** ** Dropzone *)

(** [file.type] and [file.size] of a [File]. *)
Record File := {
  fileType : string;
  fileSize : Z
}.

(** The state of the component; [dropError] is its state variable [error]. *)
Record DropzoneSt := {
  isDragging : bool;
  dropError : option string
}.

Definition setIsDragging (b : bool) (st : DropzoneSt) : DropzoneSt :=
  {| isDragging := b; dropError := dropError st |}.

Definition setDropError (e : option string) (st : DropzoneSt) : DropzoneSt :=
  {| isDragging := isDragging st; dropError := e |}.

(** The second component is the file handed to [onFileAccepted], if any. *)
Definition validateAndProcess (file : File) (st : DropzoneSt)
  : DropzoneSt * option File :=
  let st := setDropError None st in
  if negb (String.eqb (fileType file) "application/pdf") then
    (setDropError (Some "Please upload a valid PDF file.") st, None)
  else if (20 * 1024 * 1024 <? fileSize file)%Z then
    (setDropError (Some "File size exceeds 20MB limit.") st, None)
  else
    (st, Some file).

Definition handleDragOver (isProcessing : bool) (st : DropzoneSt)
  : DropzoneSt :=
  if negb isProcessing then setIsDragging true st else st.

Definition handleDragLeave (st : DropzoneSt) : DropzoneSt :=
  setIsDragging false st.

(** [files] is [e.dataTransfer.files], [None] when it is missing. *)
Definition handleDrop (isProcessing : bool) (files : option (list File))
    (st : DropzoneSt) : DropzoneSt * option File :=
  let st := setIsDragging false st in
  if isProcessing then (st, None)
  else
    match files with
    | Some (file :: _) => validateAndProcess file st
    | _ => (st, None)
    end.

(** [files] is [e.target.files]. *)
Definition handleFileInput (files : option (list File)) (st : DropzoneSt)
  : DropzoneSt * option File :=
  match files with
  | Some (file :: _) => validateAndProcess file st
  | _ => (st, None)
  end.

(** ** App.tsx: reset, and the Dropzone inside the application *)

Definition handleReset (r : Run) : Run :=
  let r := setAppState IDLE r in
  let r := setSlides [] r in
  let r := setError None r in
  setProgress (fun _ => (0, 0)%nat) r.

(** A drop on the page.  The Dropzone is rendered, with
    [isProcessing={false}] and [onFileAccepted={handleFileAccepted}], only
    while [appState] is IDLE. *)
Definition dropOnApp (w : World) (files : option (list File))
    (dz : DropzoneSt) (r : Run) : DropzoneSt * Run :=
  match appState (fst r) with
  | IDLE =>
    match handleDrop false files dz with
    | (dz', Some _) => (dz', handleFileAccepted w r)
    | (dz', None) => (dz', r)
    end
  | _ => (dz, r)
  end.

(** ** SlidePreview *)

(** The icon in the header of a card. *)
Inductive StatusIcon :=
  CheckCircle | SpinningCircle | EmptyCircle | WarningTriangle.

Definition statusIcon (s : SlideStatus) : StatusIcon :=
  match s with
  | done => CheckCircle
  | analyzing => SpinningCircle
  | pending => EmptyCircle
  | error => WarningTriangle
  end.

(** The name of a layout, as the string it is in TypeScript. *)
Definition layoutName (l : LayoutType) : string :=
  match l with
  | TITLE_ONLY => "TITLE_ONLY"
  | TITLE_AND_CONTENT => "TITLE_AND_CONTENT"
  | TWO_COLUMN => "TWO_COLUMN"
  | BLANK => "BLANK"
  | SECTION_HEADER => "SECTION_HEADER"
  end.

(** [s.replace(/_/g, ' ')] *)
Fixpoint underscoresToSpaces (s : string) : string :=
  match s with
  | EmptyString => EmptyString
  | String c r =>
    String (if Ascii.eqb c "_" then " "%char else c) (underscoresToSpaces r)
  end.

(** [a || b] on an optional string. *)
Definition orElse (o : option string) (d : string) : string :=
  match o with
  | Some s => if truthy s then s else d
  | None => d
  end.

(** The lower part of a card: the summary of the analysis (layout label,
    title, text after the title, the two colour swatches), or a line of
    grey text. *)
Inductive CardBody :=
| Summary (layoutLabel titleText afterTitle background text : string)
| Placeholder (line : string).

Definition cardBody (slide : ProcessedSlide) : CardBody :=
  match analysis slide with
  | Some a =>
    Summary (underscoresToSpaces (layoutName (layoutType a)))
            (if truthy (title a) then title a else "Untitled")
            (match content a with
             | first :: _ => " - " ++ first
             | [] => ""
             end)
            (orElse (backgroundColor a) "#fff")
            (orElse (textColor a) "#000")
  | None =>
    Placeholder (match status slide with
                 | error => "Analysis failed"
                 | _ => "Waiting for analysis..."
                 end)
  end.

(** ** Vocabulary of the further statements *)

(** The blocks of text of the [addText] calls among [ops], in order. *)
Definition textBlocks (ops : list SinkOp) : list string :=
  flat_map (fun op => match op with
                      | AddText (Runs l) _ => l
                      | AddText (Plain s) _ => [s]
                      | _ => []
                      end) ops.

Definition isAddSlide (op : SinkOp) : bool :=
  match op with AddSlide => true | _ => false end.

(** The operations of [generateImagePptx] for one page. *)
Definition fullBleed (img : string) : list SinkOp :=
  [AddSlide;
   AddImage (PageRaster img) (Inch 0) (Inch 0) (Pct 100) (Pct 100)].

(** An operation that is no text box without blocks. *)
Definition noEmptyRuns (op : SinkOp) : Prop :=
  forall opts, op <> AddText (Runs []) opts.

(** An event of the presentation builder: no console line of the
    controller. *)
Definition builderEvent (e : Event) : Prop :=
  match e with
  | EvErrorAnalyzing _ _ | EvErrorLogged _ => False
  | _ => True
  end.

(** The kinds of operation of a slide. *)
Definition isText (op : SinkOp) : Prop :=
  match op with AddText _ _ => True | _ => False end.

Definition isImage (op : SinkOp) : Prop :=
  match op with AddImage _ _ _ _ _ => True | _ => False end.

(** ** Further sample inputs *)

(** A document of three pages; the canvas gives no context for the
    second. *)
Definition samplePages (i : nat) : PageResult :=
  match i with
  | 2%nat => NoContext
  | _ => Rendered "data:image/jpeg;base64,AAAA"
  end.

(** A service that answers every image with the sample analysis. *)
Definition sampleGemini : Gemini :=
  {| apiKey := Some "key";
     generateContent := fun _ => Ok (Some "{..}");
     jsonParse := fun _ => Some (Some sampleContent) |}.

(** The same service without [API_KEY]. *)
Definition keylessGemini : Gemini :=
  {| apiKey := None;
     generateContent := generateContent sampleGemini;
     jsonParse := jsonParse sampleGemini |}.

(** Two rendered pages, analysed by the service without key. *)
Definition keylessWorld : World :=
  serviceWorld (Ok 2%nat) (fun _ => Rendered "data:image/jpeg;base64,AAAA")
               (fun _ => keylessGemini) (fun _ => sampleLoad) None.

(** Three pages: the analysis call of the first resolves with an analysis,
    that of the second with [null], that of the third rejects. *)
Definition nullWorld : World :=
  {| pdfPages := Ok ["page-1"; "page-2"; "page-3"];
     gemini := fun i _ =>
       match i with
       | 0%nat => Ok (Some sampleContent)
       | 1%nat => Ok None
       | _ => Throw (External "No response from Gemini.")
       end;
     imageLoad := fun _ => sampleLoad;
     writeOutcome := None |}.

(** ** Proof automation *)

Create HintDb nothrow.

(** The branches of [cropImage]. *)
Ltac crop_cases browser :=
  unfold cropImage;
  cbn [bind emit throw ret fst snd app];
  match goal with
  | |- context [Qle_bool ?a ?b || Qle_bool ?c ?d] =>
    destruct (Qle_bool a b || Qle_bool c d) eqn:?
  end;
  cbn [bind emit throw ret fst snd app];
  [| destruct browser as [width height [|]| |];
     cbn [bind emit throw ret fst snd app negb];
     [ match goal with
       | |- context [Qle_bool ?a 0 || Qle_bool ?c 0] =>
         destruct (Qle_bool a 0 || Qle_bool c 0) eqn:?
       end;
       cbn [bind emit throw ret fst snd app]
     | | | ] ].

(** Division of [n + 1] by two. *)
Ltac half_facts n :=
  pose proof (Nat.div_mod_eq (n + 1) 2);
  pose proof (Nat.mod_upper_bound (n + 1) 2 ltac:(lia)).

(** The branches of a block of [when] and [sink]. *)
Ltac sink_cases :=
  unfold when, sink, emit, ret;
  repeat match goal with
         | |- context [if ?b then _ else _] => destruct b
         end;
  cbn; repeat constructor.

(** * Properties *)

(** ** Bounding boxes *)

Lemma invalid_box_test (ymin xmin ymax xmax : Q) :
  Qle_bool xmax xmin || Qle_bool ymax ymin = true <->
  (xmax <= xmin \/ ymax <= ymin)%Q.
Proof. rewrite orb_true_iff, !Qle_bool_iff. reflexivity. Qed.

Lemma valid_box_test (ymin xmin ymax xmax : Q) :
  Qle_bool xmax xmin || Qle_bool ymax ymin = false <->
  (xmin < xmax /\ ymin < ymax)%Q.
Proof.
  rewrite orb_false_iff.
  split.
  - intros [Hx Hy]. split; apply Qnot_le_lt; intros H;
      apply Qle_bool_iff in H; congruence.
  - intros [Hx Hy]. split; apply not_true_is_false; intros H;
      apply Qle_bool_iff in H; lra.
Qed.

(** ** cropImage *)

(** C4. A box with [xmax <= xmin] or [ymax <= ymin] is rejected with
    [InvalidBoundingBox] whatever the browser would do with the image: the
    only event of the call is its own entry, so the image is never given
    to the decoder and nothing is drawn. *)
Theorem cropImage_rejects_invalid_box browser img ymin xmin ymax xmax :
  (xmax <= xmin \/ ymax <= ymin)%Q ->
  cropImage browser img (ymin, xmin, ymax, xmax) =
    ([EvCropCall img (ymin, xmin, ymax, xmax)],
     Throw (InvalidBoundingBox (ymin, xmin, ymax, xmax))).
Proof.
  intros H. apply invalid_box_test in H.
  unfold cropImage. cbn. rewrite H. reflexivity.
Qed.

Lemma cropImage_rejects_invalid_box_witness :
  cropImage LoadTimeout "page" (10, 60, 50, 20)%Q =
    ([EvCropCall "page" (10, 60, 50, 20)%Q],
     Throw (InvalidBoundingBox (10, 60, 50, 20)%Q)).
Proof.
  apply (cropImage_rejects_invalid_box LoadTimeout "page" 10 60 50 20).
  left. lra.
Defined.










(** ** Computations that do not throw *)

Lemma bind_ok {A B} (m : M A) (k : A -> M B) (a : A) :
  snd m = Ok a -> bind m k = (fst m ++ fst (k a), snd (k a)).
Proof.
  destruct m as [t r]. cbn. intros ->. cbn. destruct (k a). reflexivity.
Qed.

Lemma seq_ok {B} (m : M unit) (k : M B) :
  snd m = Ok tt -> (m ;;; k) = (fst m ++ fst k, snd k).
Proof. intros H. apply (bind_ok m (fun _ => k) tt H). Qed.

Lemma seq_ok_unit (m k : M unit) :
  snd m = Ok tt -> snd k = Ok tt -> snd (m ;;; k) = Ok tt.
Proof. intros Hm Hk. rewrite (seq_ok m k Hm). exact Hk. Qed.

Lemma when_ok b (m : M unit) : snd m = Ok tt -> snd (when b m) = Ok tt.
Proof. destruct b; auto. Qed.

Lemma sink_ok op : snd (sink op) = Ok tt.
Proof. reflexivity. Qed.

Lemma emit_ok e : snd (emit e) = Ok tt.
Proof. reflexivity. Qed.

Lemma tryCatch_ok (m : M unit) h :
  (forall e, snd (h e) = Ok tt) -> snd (tryCatch m h) = Ok tt.
Proof.
  intros Hh. destruct m as [t [[]|e]]; cbn; [reflexivity |].
  specialize (Hh e). destruct (h e). exact Hh.
Qed.

#[local] Hint Resolve seq_ok_unit when_ok sink_ok emit_ok tryCatch_ok : nothrow.

Lemma forOfFrom_run {A} (body : nat -> A -> M unit) (xs : list A) :
  (forall j x, snd (body j x) = Ok tt) ->
  forall k,
    forOfFrom k xs body =
      (concat (imap (fun j x => fst (body (k + j)%nat x)) xs), Ok tt).
Proof.
  intros Hbody. induction xs as [|x xs IH]; intros k; [reflexivity |].
  cbn [forOfFrom]. rewrite (seq_ok _ _ (Hbody k x)), IH. cbn.
  rewrite Nat.add_0_r. do 3 f_equal.
  apply imap_ext. intros j y _. cbn. do 2 f_equal. lia.
Qed.

Lemma forOf_run {A} (body : nat -> A -> M unit) (xs : list A) :
  (forall j x, snd (body j x) = Ok tt) ->
  forOf xs body = (concat (imap (fun j x => fst (body j x)) xs), Ok tt).
Proof. intros Hbody. apply (forOfFrom_run body xs Hbody 0). Qed.

Lemma sinkOps_app t1 t2 : sinkOps (t1 ++ t2) = sinkOps t1 ++ sinkOps t2.
Proof. unfold sinkOps. apply flat_map_app. Qed.

Lemma sinkOps_concat ts : sinkOps (concat ts) = concat (sinkOps <$> ts).
Proof.
  induction ts as [|t ts IH]; [reflexivity |].
  rewrite fmap_cons. cbn [concat]. rewrite sinkOps_app, IH. reflexivity.
Qed.

(** ** Text placement *)

Lemma ceilHalf_div n : ceilHalf n = ((n + 1) / 2)%nat.
Proof.
  remember ((n + 1) / 2)%nat as m eqn:Hm.
  unfold ceilHalf, Qceiling, Qfloor. cbn.
  rewrite Z.mul_1_r. change (Z.pos (1 * 2)) with 2%Z.
  subst m.
  pose proof (Z.div_mod (- Z.of_nat n) 2 ltac:(lia)).
  pose proof (Z.mod_pos_bound (- Z.of_nat n) 2 ltac:(lia)).
  pose proof (Nat.div_mod_eq (n + 1) 2).
  pose proof (Nat.mod_upper_bound (n + 1) 2 ltac:(lia)).
  lia.
Qed.

Lemma half_le n : ((n + 1) / 2 <= n)%nat.
Proof. half_facts n. lia. Qed.

Lemma half_pos n : (0 <? (n + 1) / 2)%nat = (0 <? n)%nat.
Proof.
  half_facts n.
  destruct (Nat.ltb_spec 0 ((n + 1) / 2)), (Nat.ltb_spec 0 n); auto; lia.
Qed.

Lemma half_rest n : (0 <? n - (n + 1) / 2)%nat = (1 <? n)%nat.
Proof.
  half_facts n.
  destruct (Nat.ltb_spec 0 (n - (n + 1) / 2)), (Nat.ltb_spec 1 n); auto; lia.
Qed.

(** C7. On a TWO_COLUMN slide with [L] blocks the content is cut at
    [Math.ceil(L / 2)]: the left text box gets the first [ceil(L/2)] blocks,
    the right one the [L - ceil(L/2)] others, and a column without blocks
    gets no text box (none at all for [L = 0], the left one only for
    [L = 1]). *)
Theorem two_column_split sd fg :
  layoutType sd = TWO_COLUMN ->
  let L := length (content sd) in
  let mid := ceilHalf L in
  let leftCol := take mid (content sd) in
  let rightCol := drop mid (content sd) in
  mid = ((L + 1) / 2)%nat /\
  length leftCol = mid /\
  length rightCol = (L - mid)%nat /\
  addContentText sd fg =
    ((if (0 <? L)%nat
      then [EvSink (AddText (Runs leftCol) (leftColOpts fg))] else []) ++
     (if (1 <? L)%nat
      then [EvSink (AddText (Runs rightCol) (rightColOpts fg))] else []),
     Ok tt) /\
  (L = 0%nat -> fst (addContentText sd fg) = []) /\
  (L = 1%nat ->
   fst (addContentText sd fg) =
     [EvSink (AddText (Runs (content sd)) (leftColOpts fg))]).
Proof.
  intros Hlay L mid leftCol rightCol.
  assert (Hmid : mid = ((L + 1) / 2)%nat) by apply ceilHalf_div.
  pose proof (half_le L) as Hle.
  assert (Hl : length leftCol = mid).
  { unfold leftCol. rewrite length_take. fold L. lia. }
  assert (Hr : length rightCol = (L - mid)%nat).
  { unfold rightCol. rewrite length_drop. reflexivity. }
  assert (Hrun : addContentText sd fg =
    ((if (0 <? L)%nat
      then [EvSink (AddText (Runs leftCol) (leftColOpts fg))] else []) ++
     (if (1 <? L)%nat
      then [EvSink (AddText (Runs rightCol) (rightColOpts fg))] else []),
     Ok tt)).
  { unfold addContentText. rewrite Hlay.
    fold L. fold mid. unfold sliceTo, sliceFrom. fold leftCol rightCol.
    rewrite Hl, Hr, Hmid, half_pos, half_rest.
    destruct (0 <? L)%nat, (1 <? L)%nat; reflexivity. }
  repeat split; auto.
  - intros H0. rewrite Hrun, H0. reflexivity.
  - intros H1. rewrite Hrun, H1. cbn.
    unfold leftCol. rewrite Hmid, H1. cbn.
    unfold L in H1.
    destruct (content sd) as [|a [|b l]]; cbn in H1; try discriminate.
    reflexivity.
Qed.

Lemma two_column_split_witness :
  addContentText sampleContent "112233" =
    ([EvSink (AddText (Runs ["one"; "two"]) (leftColOpts "112233"));
      EvSink (AddText (Runs ["three"]) (rightColOpts "112233"))],
     Ok tt).
Proof.
  pose proof (two_column_split sampleContent "112233" eq_refl) as H.
  cbv zeta in H. destruct H as (_ & _ & _ & Hrun & _).
  rewrite Hrun. reflexivity.
Defined.

(** ** The figure loop *)

Lemma cropImage_no_sink browser img box :
  sinkOps (fst (cropImage browser img box)) = [].
Proof.
  destruct box as [[[ymin xmin] ymax] xmax].
  crop_cases browser; reflexivity.
Qed.

Lemma cropImage_discipline browser img ymin xmin ymax xmax :
  (xmin < xmax /\ ymin < ymax)%Q ->
  Forall cropDiscipline (fst (cropImage browser img (ymin, xmin, ymax, xmax))).
Proof.
  intros Hvalid.
  crop_cases browser; repeat constructor; tauto.
Qed.

Lemma cropImage_valid_not_rejected browser img ymin xmin ymax xmax b :
  (xmin < xmax /\ ymin < ymax)%Q ->
  snd (cropImage browser img (ymin, xmin, ymax, xmax))
    <> Throw (InvalidBoundingBox b).
Proof.
  intros Hvalid. apply valid_box_test in Hvalid.
  crop_cases browser; congruence.
Qed.

Lemma addFigure_run browser img figure :
  addFigure browser img figure =
    let '(ymin, xmin, ymax, xmax) := boundingBox figure in
    if Qle_bool xmax xmin || Qle_bool ymax ymin then
      ([EvWarnInvalidBox (boundingBox figure)], Ok tt)
    else
      match cropImage browser img (boundingBox figure) with
      | (t, Ok data) =>
        (t ++ [EvSink (AddImage data (Pct xmin) (Pct ymin)
                                (Pct (xmax - xmin)) (Pct (ymax - ymin)))],
         Ok tt)
      | (t, Throw e) => (t ++ [EvErrorFigure e], Ok tt)
      end.
Proof.
  unfold addFigure.
  destruct (boundingBox figure) as [[[ymin xmin] ymax] xmax].
  destruct (Qle_bool xmax xmin || Qle_bool ymax ymin); [reflexivity |].
  destruct (cropImage browser img (ymin, xmin, ymax, xmax)) as [t [data|e]];
    reflexivity.
Qed.

Lemma addFigure_ok browser img figure :
  snd (addFigure browser img figure) = Ok tt.
Proof. unfold addFigure. auto with nothrow. Qed.

Lemma addFigure_discipline browser img figure :
  Forall cropDiscipline (fst (addFigure browser img figure)).
Proof.
  rewrite addFigure_run.
  destruct (boundingBox figure) as [[[ymin xmin] ymax] xmax].
  destruct (Qle_bool xmax xmin || Qle_bool ymax ymin) eqn:Htest.
  - repeat constructor.
  - apply valid_box_test in Htest.
    pose proof (cropImage_discipline browser img ymin xmin ymax xmax Htest)
      as Hcrop.
    pose proof (cropImage_valid_not_rejected browser img ymin xmin ymax xmax)
      as Hrej.
    destruct (cropImage browser img (ymin, xmin, ymax, xmax)) as [t [data|e]];
      cbn [fst snd] in *; apply Forall_app; split; auto;
      repeat constructor.
    destruct e; cbn; auto. apply (Hrej box Htest). reflexivity.
Qed.

Lemma addFigures_ok il img sd : snd (addFigures il img sd) = Ok tt.
Proof.
  unfold addFigures. destruct (figures sd) as [figs|]; [| reflexivity].
  apply when_ok. rewrite forOf_run; [reflexivity |].
  intros j x. apply addFigure_ok.
Qed.

Lemma addFigures_run il img sd figs :
  figures sd = Some figs ->
  addFigures il img sd =
    (concat (imap (fun j figure => fst (addFigure (il j) img figure)) figs),
     Ok tt).
Proof.
  intros Hfigs. unfold addFigures. rewrite Hfigs.
  destruct figs as [|f figs]; [reflexivity |].
  cbn [length Nat.ltb Nat.leb when].
  apply forOf_run. intros j x. apply addFigure_ok.
Qed.

Lemma addFigures_discipline il img sd :
  Forall cropDiscipline (fst (addFigures il img sd)).
Proof.
  destruct (figures sd) as [figs|] eqn:Hfigs.
  - rewrite (addFigures_run il img sd figs Hfigs). cbn [fst].
    apply Forall_concat, Forall_forall. intros t Ht.
    apply elem_of_lookup_imap in Ht.
    destruct Ht as (j & figure & -> & _). apply addFigure_discipline.
  - unfold addFigures. rewrite Hfigs. constructor.
Qed.

Lemma addFigure_ops browser img figure :
  let '(ymin, xmin, ymax, xmax) := boundingBox figure in
  if figureFails browser img figure then
    sinkOps (fst (addFigure browser img figure)) = [] /\
    figureFailureLogged (fst (addFigure browser img figure))
  else
    exists data,
      snd (cropImage browser img (boundingBox figure)) = Ok data /\
      sinkOps (fst (addFigure browser img figure)) =
        [AddImage data (Pct xmin) (Pct ymin)
                  (Pct (xmax - xmin)) (Pct (ymax - ymin))].
Proof.
  rewrite addFigure_run. unfold figureFails.
  destruct (boundingBox figure) as [[[ymin xmin] ymax] xmax].
  destruct (Qle_bool xmax xmin || Qle_bool ymax ymin).
  - cbn. split; [reflexivity |].
    exists (EvWarnInvalidBox (ymin, xmin, ymax, xmax)). cbn. auto.
  - pose proof (cropImage_no_sink browser img (ymin, xmin, ymax, xmax))
      as Hsink.
    destruct (cropImage browser img (ymin, xmin, ymax, xmax)) as [t [data|e]];
      cbn [fst snd orb] in *.
    + exists data. split; [reflexivity |].
      rewrite sinkOps_app, Hsink. reflexivity.
    + split; [rewrite sinkOps_app, Hsink; reflexivity |].
      exists (EvErrorFigure e). split; [| exact I].
      apply in_or_app. right. left. reflexivity.
Qed.

Lemma addFigure_after_background fg browser img figure :
  Forall (afterBackground fg) (sinkOps (fst (addFigure browser img figure))).
Proof.
  pose proof (addFigure_ops browser img figure) as H.
  destruct (boundingBox figure) as [[[ymin xmin] ymax] xmax].
  destruct (figureFails browser img figure).
  - destruct H as [-> _]. constructor.
  - destruct H as (data & _ & ->). repeat constructor.
Qed.

(** ** One slide *)

Lemma applyBackground_ok sd : snd (applyBackground sd) = Ok tt.
Proof.
  unfold applyBackground. destruct (backgroundColor sd); auto with nothrow.
Qed.

Lemma addTitle_ok sd fg : snd (addTitle sd fg) = Ok tt.
Proof. unfold addTitle. auto with nothrow. Qed.

Lemma addContentText_ok sd fg : snd (addContentText sd fg) = Ok tt.
Proof. unfold addContentText. destruct (layoutType sd); auto with nothrow. Qed.

Lemma addSpeakerNotes_ok sd : snd (addSpeakerNotes sd) = Ok tt.
Proof. unfold addSpeakerNotes. destruct (notes sd); auto with nothrow. Qed.

#[local] Hint Resolve applyBackground_ok addTitle_ok addContentText_ok
  addSpeakerNotes_ok addFigures_ok addFigure_ok : nothrow.

Lemma assembleSlide_run il slide sd :
  analysis slide = Some sd ->
  assembleSlide il slide =
    (EvSink AddSlide ::
       fst (applyBackground sd) ++
       fst (addTitle sd (fgColorOf sd)) ++
       fst (addContentText sd (fgColorOf sd)) ++
       fst (addFigures il (originalImage slide) sd) ++
       fst (addSpeakerNotes sd),
     Ok tt).
Proof.
  intros Ha. unfold assembleSlide. rewrite Ha.
  repeat (rewrite seq_ok by auto with nothrow; cbn [fst snd]).
  rewrite addSpeakerNotes_ok. reflexivity.
Qed.

Lemma assembleSlide_ok il slide : snd (assembleSlide il slide) = Ok tt.
Proof.
  destruct (analysis slide) as [sd|] eqn:Ha.
  - rewrite (assembleSlide_run il slide sd Ha). reflexivity.
  - unfold assembleSlide. rewrite Ha. reflexivity.
Qed.

Lemma when_after_background fg b m :
  Forall (afterBackground fg) (sinkOps (fst m)) ->
  Forall (afterBackground fg) (sinkOps (fst (when b m))).
Proof. destruct b; [auto | constructor]. Qed.

Lemma addTitle_after_background sd fg :
  Forall (afterBackground fg) (sinkOps (fst (addTitle sd fg))).
Proof. apply when_after_background. repeat constructor. Qed.

Lemma addContentText_after_background sd fg :
  Forall (afterBackground fg) (sinkOps (fst (addContentText sd fg))).
Proof.
  unfold addContentText.
  destruct (layoutType sd);
    try (apply when_after_background; repeat constructor).
  rewrite seq_ok by auto with nothrow. cbn [fst].
  rewrite sinkOps_app. apply Forall_app.
  split; apply when_after_background; repeat constructor.
Qed.

Lemma addFigures_after_background fg il img sd :
  Forall (afterBackground fg) (sinkOps (fst (addFigures il img sd))).
Proof.
  destruct (figures sd) as [figs|] eqn:Hfigs.
  - rewrite (addFigures_run il img sd figs Hfigs). cbn [fst].
    rewrite sinkOps_concat.
    apply Forall_concat, Forall_forall. intros ops Hops.
    apply list_elem_of_fmap in Hops. destruct Hops as (t & -> & Ht).
    apply elem_of_lookup_imap in Ht.
    destruct Ht as (j & figure & -> & _).
    apply addFigure_after_background.
  - unfold addFigures. rewrite Hfigs. constructor.
Qed.

Lemma addSpeakerNotes_after_background fg sd :
  Forall (afterBackground fg) (sinkOps (fst (addSpeakerNotes sd))).
Proof.
  unfold addSpeakerNotes. destruct (notes sd); [| constructor].
  apply when_after_background. repeat constructor.
Qed.

(** The operations of one slide: the slide is added, its background is set
    if the analysis gives one, and no later operation adds a slide, sets a
    background or writes text in another colour than [fgColorOf]. *)
Lemma assembleSlide_ops il slide sd :
  analysis slide = Some sd ->
  exists rest,
    sinkOps (fst (assembleSlide il slide)) =
      AddSlide ::
        match backgroundColor sd with
        | Some c => if truthy c then [SetBackground (replaceHash c)] else []
        | None => []
        end ++ rest /\
    Forall (afterBackground (fgColorOf sd)) rest.
Proof.
  intros Ha.
  set (fg := fgColorOf sd).
  exists (sinkOps (fst (addTitle sd fg)) ++
          sinkOps (fst (addContentText sd fg)) ++
          sinkOps (fst (addFigures il (originalImage slide) sd)) ++
          sinkOps (fst (addSpeakerNotes sd))).
  split.
  - rewrite (assembleSlide_run il slide sd Ha). cbn [fst]. fold fg.
    change (sinkOps (EvSink AddSlide :: ?t)) with (AddSlide :: sinkOps t).
    rewrite !sinkOps_app. do 2 f_equal.
    unfold applyBackground.
    destruct (backgroundColor sd) as [c|]; [| reflexivity].
    destruct (truthy c); reflexivity.
  - repeat (apply Forall_app; split).
    + apply addTitle_after_background.
    + apply addContentText_after_background.
    + apply addFigures_after_background.
    + apply addSpeakerNotes_after_background.
Qed.

(** C9, as the code has it.  On a slide with an analysis the text colour is
    [textColor] without its first ['#'] (a leading one in particular), black
    when there is none, and every text box carries it.  The background is
    set, right after the slide is added and to [backgroundColor] without
    its first ['#'], when the analysis gives a non-empty [backgroundColor];
    no other operation of the slide sets a background. *)
Theorem slide_colors il slide sd :
  analysis slide = Some sd ->
  let ops := sinkOps (fst (assembleSlide il slide)) in
  let background :=
    match backgroundColor sd with
    | Some c => if truthy c then [SetBackground (replaceHash c)] else []
    | None => []
    end in
  (exists rest,
     ops = AddSlide :: background ++ rest /\
     forall c, ~ In (SetBackground c) rest) /\
  (forall body opts, In (AddText body opts) ops -> color opts = fgColorOf sd) /\
  (forall c, backgroundColor sd = Some (String "#" c) ->
             background = [SetBackground c]) /\
  (forall c, textColor sd = Some (String "#" c) -> fgColorOf sd = c) /\
  (textColor sd = None -> fgColorOf sd = "000000").
Proof.
  intros Ha ops background.
  destruct (assembleSlide_ops il slide sd Ha) as (rest & Hops & Hrest).
  fold ops background in Hops.
  rewrite Forall_forall in Hrest.
  split; [| split; [| split; [| split]]].
  - exists rest. split; [exact Hops |].
    intros c Hin. apply (Hrest (SetBackground c)).
    apply list_elem_of_In. exact Hin.
  - intros body opts Hin. rewrite Hops in Hin.
    destruct Hin as [Hin | Hin]; [discriminate |].
    apply in_app_or in Hin. destruct Hin as [Hin | Hin].
    + unfold background in Hin.
      destruct (backgroundColor sd) as [c|]; [| contradiction].
      destruct (truthy c); [| contradiction].
      destruct Hin as [Hin | []]. discriminate.
    + apply (Hrest (AddText body opts)). apply list_elem_of_In. exact Hin.
  - intros c Hc. unfold background. rewrite Hc. reflexivity.
  - intros c Hc. unfold fgColorOf. rewrite Hc. reflexivity.
  - intros Hc. unfold fgColorOf. rewrite Hc. reflexivity.
Qed.

Lemma slide_colors_witness :
  analysis sampleSlide = Some sampleContent /\
  fgColorOf sampleContent = "112233".
Proof.
  split; [reflexivity |].
  pose proof (slide_colors sampleLoad sampleSlide sampleContent eq_refl) as H.
  cbv zeta in H. destruct H as (_ & _ & _ & Hfg & _).
  apply (Hfg "112233"). reflexivity.
Defined.

(** C9, as the claim has it, fails: the sample analysis gives no
    [backgroundColor], and no operation of its slide sets a background. *)
Lemma background_not_set_without_color :
  backgroundColor sampleContent = None /\
  forall c,
    ~ In (SetBackground c)
         (sinkOps (fst (assembleSlide sampleLoad sampleSlide))).
Proof.
  split; [reflexivity |].
  intros c H. vm_compute in H.
  repeat (destruct H as [H | H]; [discriminate |]). exact H.
Qed.

(** C1. On a slide whose analysis has figures, assembly never throws; its
    operations are the ones decided before the figures, then what each
    figure gives, in order, then the notes; and a figure that fails (box
    rejected, or [cropImage] rejecting for the box, the decoder or the
    canvas) gives no operation and one console line, while any other figure
    gives its [addImage].  So with three figures of which the second has an
    inverted box, the operations are those of the first and of the third. *)
Theorem figure_failures_are_contained il slide sd figs :
  analysis slide = Some sd ->
  figures sd = Some figs ->
  let img := originalImage slide in
  let fg := fgColorOf sd in
  let decided :=
    (sink AddSlide ;;; applyBackground sd ;;;
     addTitle sd fg ;;; addContentText sd fg) in
  let figureOps j figure := sinkOps (fst (addFigure (il j) img figure)) in
  snd (assembleSlide il slide) = Ok tt /\
  sinkOps (fst (assembleSlide il slide)) =
    sinkOps (fst decided) ++ concat (imap figureOps figs) ++
    sinkOps (fst (addSpeakerNotes sd)) /\
  (forall j figure,
     let '(ymin, xmin, ymax, xmax) := boundingBox figure in
     if figureFails (il j) img figure then
       figureOps j figure = [] /\
       figureFailureLogged (fst (addFigure (il j) img figure))
     else
       exists data,
         snd (cropImage (il j) img (boundingBox figure)) = Ok data /\
         figureOps j figure =
           [AddImage data (Pct xmin) (Pct ymin)
                     (Pct (xmax - xmin)) (Pct (ymax - ymin))]) /\
  (forall f1 f2 f3,
     figs = [f1; f2; f3] ->
     (let '(_, xmin, _, xmax) := boundingBox f2 in xmax < xmin)%Q ->
     sinkOps (fst (assembleSlide il slide)) =
       sinkOps (fst decided) ++ figureOps 0%nat f1 ++ figureOps 2%nat f3 ++
       sinkOps (fst (addSpeakerNotes sd))).
Proof.
  intros Ha Hfigs img fg decided figureOps.
  assert (Hrun : sinkOps (fst (assembleSlide il slide)) =
    sinkOps (fst decided) ++ concat (imap figureOps figs) ++
    sinkOps (fst (addSpeakerNotes sd))).
  { rewrite (assembleSlide_run il slide sd Ha). cbn [fst].
    rewrite (addFigures_run il (originalImage slide) sd figs Hfigs).
    cbn [fst]. unfold decided.
    repeat (rewrite seq_ok by auto with nothrow; cbn [fst snd]).
    fold fg img.
    change (sinkOps (EvSink AddSlide :: ?t)) with (AddSlide :: sinkOps t).
    rewrite !sinkOps_app, sinkOps_concat.
    cbn [app]. rewrite <- !app_assoc.
    do 5 f_equal. unfold figureOps.
    rewrite fmap_imap. reflexivity. }
  split; [apply assembleSlide_ok |].
  split; [exact Hrun |].
  split.
  - intros j figure. apply (addFigure_ops (il j) img figure).
  - intros f1 f2 f3 -> Hinv.
    assert (H2 : figureOps 1%nat f2 = []).
    { pose proof (addFigure_ops (il 1%nat) img f2) as H.
      unfold figureFails in H.
      destruct (boundingBox f2) as [[[ymin xmin] ymax] xmax].
      assert (Ht : Qle_bool xmax xmin = true)
        by (apply Qle_bool_iff; lra).
      rewrite Ht in H. cbn [orb] in H. apply H. }
    rewrite Hrun. f_equal. cbn. rewrite H2. cbn [app].
    rewrite app_nil_r, <- app_assoc. reflexivity.
Qed.

Lemma figure_failures_are_contained_witness :
  analysis sampleSlide = Some sampleContent /\
  figures sampleContent = Some sampleFigures /\
  snd (assembleSlide sampleLoad sampleSlide) = Ok tt.
Proof.
  split; [reflexivity |]. split; [reflexivity |].
  apply (figure_failures_are_contained sampleLoad sampleSlide sampleContent
           sampleFigures eq_refl eq_refl).
Defined.

(** ** The whole presentation *)

Lemma generatePptx_run il outcome processedSlides :
  generatePptx il outcome processedSlides =
    ([EvSink NewPptx; EvSink (SetAuthor "SlideShifter App");
      EvSink (SetCompany "Made with Gemini");
      EvSink (SetTitle "Converted Presentation")] ++
     concat (imap (fun k slideItem => fst (assembleSlide (il k) slideItem))
                  processedSlides) ++
     [EvSink (WriteFile "Converted_Presentation_")],
     match outcome with None => Ok tt | Some e => Throw e end).
Proof.
  unfold generatePptx.
  repeat (rewrite seq_ok by apply sink_ok; cbn [fst snd sink emit app]).
  rewrite forOf_run by (intros; apply assembleSlide_ok).
  rewrite seq_ok by reflexivity. cbn [fst snd].
  unfold writeFile. destruct outcome; reflexivity.
Qed.

Lemma generateImagePptx_run outcome processedSlides :
  generateImagePptx outcome processedSlides =
    ([EvSink NewPptx; EvSink (SetAuthor "SlideShifter App");
      EvSink (SetTitle "Converted Presentation (Image Mode)")] ++
     concat (imap (fun (_ : nat) slideItem =>
                     [EvSink AddSlide;
                      EvSink (AddImage (PageRaster (originalImage slideItem))
                                (Inch 0) (Inch 0) (Pct 100) (Pct 100))])
                  processedSlides) ++
     [EvSink (WriteFile "Converted_Presentation_Img_")],
     match outcome with None => Ok tt | Some e => Throw e end).
Proof.
  unfold generateImagePptx.
  repeat (rewrite seq_ok by apply sink_ok; cbn [fst snd sink emit app]).
  rewrite forOf_run by reflexivity.
  rewrite seq_ok by reflexivity. cbn [fst snd].
  unfold writeFile. destruct outcome; reflexivity.
Qed.

Lemma assembleSlide_discipline il slide :
  Forall cropDiscipline (fst (assembleSlide il slide)).
Proof.
  destruct (analysis slide) as [sd|] eqn:Ha.
  - rewrite (assembleSlide_run il slide sd Ha). cbn [fst].
    constructor; [exact I |].
    repeat (apply Forall_app; split).
    + unfold applyBackground. destruct (backgroundColor sd); sink_cases.
    + unfold addTitle. sink_cases.
    + unfold addContentText. destruct (layoutType sd); sink_cases.
    + apply addFigures_discipline.
    + unfold addSpeakerNotes. destruct (notes sd); sink_cases.
  - unfold assembleSlide. rewrite Ha. constructor.
Qed.

Lemma generatePptx_discipline il outcome processedSlides :
  Forall cropDiscipline (fst (generatePptx il outcome processedSlides)).
Proof.
  rewrite generatePptx_run. cbn [fst].
  repeat (apply Forall_app; split); try (repeat constructor).
  apply Forall_concat, Forall_forall. intros t Ht.
  apply elem_of_lookup_imap in Ht. destruct Ht as (k & s & -> & _).
  apply assembleSlide_discipline.
Qed.

(** C10. Whenever the presentation builder enters [cropImage], the box has
    [xmin < xmax] and [ymin < ymax]: the loop over the figures has already
    left out the others.  So that call does not end in [InvalidBoundingBox],
    whatever the browser does, and no figure is ever given up for that
    error. *)
Theorem assembler_crops_valid_boxes_only
    il outcome processedSlides img ymin xmin ymax xmax :
  In (EvCropCall img (ymin, xmin, ymax, xmax))
     (fst (generatePptx il outcome processedSlides)) ->
  (xmin < xmax /\ ymin < ymax)%Q /\
  (forall browser b,
     snd (cropImage browser img (ymin, xmin, ymax, xmax))
       <> Throw (InvalidBoundingBox b)) /\
  (forall b,
     ~ In (EvErrorFigure (InvalidBoundingBox b))
          (fst (generatePptx il outcome processedSlides))).
Proof.
  intros Hcall.
  pose proof (generatePptx_discipline il outcome processedSlides) as Hall.
  rewrite Forall_forall in Hall.
  assert (Hvalid : (xmin < xmax /\ ymin < ymax)%Q).
  { apply (Hall (EvCropCall img (ymin, xmin, ymax, xmax))).
    apply list_elem_of_In. exact Hcall. }
  split; [exact Hvalid |]. split.
  - intros browser b. apply cropImage_valid_not_rejected. exact Hvalid.
  - intros b Hin.
    apply (Hall (EvErrorFigure (InvalidBoundingBox b))).
    apply list_elem_of_In. exact Hin.
Qed.

Lemma assembler_crops_valid_boxes_only_witness :
  In (EvCropCall "page-1" (50, 50, 90, 90)%Q)
     (fst (generatePptx (fun _ => sampleLoad) None [sampleSlide])) /\
  (50 < 90 /\ 50 < 90)%Q.
Proof.
  assert (Hcall : In (EvCropCall "page-1" (50, 50, 90, 90)%Q)
                     (fst (generatePptx (fun _ => sampleLoad) None
                                        [sampleSlide])))
    by (vm_compute; tauto).
  split; [exact Hcall |].
  apply (assembler_crops_valid_boxes_only (fun _ => sampleLoad) None
           [sampleSlide] "page-1" 50 50 90 90 Hcall).
Defined.

(** ** The batch controller *)

(** One turn of the loop, on the slide that follows [prefix]. *)
Lemma analyzeTurn_run w st tr prefix p rest :
  analyzeTurn w ((st, tr), prefix ++ p :: rest) (length prefix) =
    (({| appState := appState st;
         slides := prefix ++ analyzedSlide w (length prefix) p :: rest;
         progress := ((length prefix + 1)%nat, snd (progress st));
         errorMessage := errorMessage st;
         mode := mode st |},
      tr ++ analysisLog w (length prefix) p),
     prefix ++ analyzedSlide w (length prefix) p :: rest).
Proof.
  unfold analyzeTurn.
  assert (Halter : forall f (q : ProcessedSlide),
            alter f (length prefix) (prefix ++ q :: rest)
            = prefix ++ f q :: rest).
  { intros f q. rewrite alter_app_r_alt by lia.
    rewrite Nat.sub_diag. reflexivity. }
  rewrite Halter.
  rewrite list_lookup_middle by reflexivity.
  unfold analyzedSlide, analysisLog. cbn [originalImage withStatus].
  destruct (gemini w (length prefix) (originalImage p)) as [a|err];
    rewrite Halter; cbn; rewrite ?app_nil_r; reflexivity.
Qed.

(** The turns of the loop that are still to come, when the slides of
    [prefix] have had theirs. *)
Lemma analyzeLoop_run w rest : forall st tr prefix,
  let k := length prefix in
  fold_left (analyzeTurn w) (seq k (length rest)) ((st, tr), prefix ++ rest) =
    ((match rest with
      | [] => st
      | _ =>
        {| appState := appState st;
           slides := prefix ++ imap (fun j => analyzedSlide w (k + j)) rest;
           progress := ((k + length rest)%nat, snd (progress st));
           errorMessage := errorMessage st;
           mode := mode st |}
      end,
      tr ++ concat (imap (fun j => analysisLog w (k + j)) rest)),
     prefix ++ imap (fun j => analyzedSlide w (k + j)) rest).
Proof.
  induction rest as [|p rest IH]; intros st tr prefix; cbv zeta in *.
  - cbn. rewrite !app_nil_r. reflexivity.
  - cbn [length seq fold_left]. rewrite analyzeTurn_run.
    replace (prefix ++ analyzedSlide w (length prefix) p :: rest)
      with ((prefix ++ [analyzedSlide w (length prefix) p]) ++ rest)
      by (rewrite <- app_assoc; reflexivity).
    replace (S (length prefix))
      with (length (prefix ++ [analyzedSlide w (length prefix) p]))
      by (rewrite length_app; cbn; lia).
    rewrite IH. clear IH.
    rewrite length_app. cbn [length].
    rewrite !imap_cons, Nat.add_0_r. cbn [concat].
    rewrite <- !app_assoc. cbn [app].
    assert (E1 : imap (fun j => analyzedSlide w (length prefix + 1 + j)) rest
               = imap ((fun j => analyzedSlide w (length prefix + j)) ∘ S) rest).
    { apply imap_ext. intros j q _. cbn. f_equal. lia. }
    assert (E2 : imap (fun j => analysisLog w (length prefix + 1 + j)) rest
               = imap ((fun j => analysisLog w (length prefix + j)) ∘ S) rest).
    { apply imap_ext. intros j q _. cbn. f_equal. lia. }
    rewrite E1, E2.
    destruct rest as [|q rest]; cbn [progress snd appState errorMessage mode].
    + cbn. repeat f_equal.
    + replace (length prefix + 1 + length (q :: rest))%nat
        with (length prefix + S (length (q :: rest)))%nat by lia.
      reflexivity.
Qed.

(** The whole of [analyzeSlides]: every slide gets its turn, then the
    presentation is attempted on the slides that are left. *)
Lemma analyzeSlides_run w l st tr :
  analyzeSlides w l (st, tr) =
    let final := imap (analyzedSlide w) l in
    let valid := List.filter retained final in
    let attempt : M unit :=
      if (length valid =? 0)%nat then throw NoSlidesAnalyzed
      else generatePptx (imageLoad w) (writeOutcome w) valid in
    ({| appState :=
          match snd attempt with Ok _ => COMPLETED | Throw _ => ERROR end;
        slides := match l with [] => slides st | _ => final end;
        progress := match l with
                    | [] => progress st
                    | _ => (length l, snd (progress st))
                    end;
        errorMessage :=
          match snd attempt with
          | Ok _ => errorMessage st
          | Throw _ => Some "Failed to generate PowerPoint file."
          end;
        mode := mode st |},
     tr ++ concat (imap (analysisLog w) l) ++ fst attempt ++
     match snd attempt with Ok _ => [] | Throw e => [EvErrorLogged e] end).
Proof.
  unfold analyzeSlides. cbn [setAppState].
  pose proof (analyzeLoop_run w l
    {| appState := ANALYZING_SLIDES; slides := slides st;
       progress := progress st; errorMessage := errorMessage st;
       mode := mode st |} tr []) as Hloop.
  cbn [length app Nat.add] in Hloop.
  unfold Run in *. rewrite Hloop. clear Hloop.
  cbv zeta.
  set (final := imap (analyzedSlide w) l).
  set (attempt := if (length (List.filter retained final) =? 0)%nat
                  then throw NoSlidesAnalyzed
                  else generatePptx (imageLoad w) (writeOutcome w)
                                    (List.filter retained final)).
  destruct attempt as [t [[]|e]]; destruct l; cbn;
    rewrite ?app_nil_r, <- ?app_assoc; reflexivity.
Qed.

(** The three shapes of a run. *)
Lemma runBatch_unreadable w m e :
  pdfPages w = Throw e ->
  runBatch w m =
    ({| appState := ERROR; slides := []; progress := (0, 0)%nat;
        errorMessage :=
          Some "Failed to process PDF. Please try a simpler file.";
        mode := m |},
     [EvErrorLogged e]).
Proof.
  intros H. unfold runBatch, handleFileAccepted. rewrite H. reflexivity.
Qed.

Lemma runBatch_ai w images :
  pdfPages w = Ok images ->
  runBatch w AI_EXTRACT =
    let final := imap (fun i img => analyzedSlide w i (pageOf img)) images in
    let valid := List.filter retained final in
    let attempt : M unit :=
      if (length valid =? 0)%nat then throw NoSlidesAnalyzed
      else generatePptx (imageLoad w) (writeOutcome w) valid in
    ({| appState :=
          match snd attempt with Ok _ => COMPLETED | Throw _ => ERROR end;
        slides := final;
        progress := (length images, length images);
        errorMessage :=
          match snd attempt with
          | Ok _ => None
          | Throw _ => Some "Failed to generate PowerPoint file."
          end;
        mode := AI_EXTRACT |},
     concat (imap (fun i img => analysisLog w i (pageOf img)) images) ++
     fst attempt ++
     match snd attempt with Ok _ => [] | Throw e => [EvErrorLogged e] end).
Proof.
  intros H. unfold runBatch, handleFileAccepted. rewrite H.
  cbn [setAppState setError setSlides setProgress initialApp fst mode].
  change (map _ images) with (pageOf <$> images).
  rewrite analyzeSlides_run. cbv zeta.
  rewrite !imap_fmap. cbn [app slides progress errorMessage mode snd].
  rewrite length_fmap.
  destruct images; reflexivity.
Qed.

Lemma runBatch_image w images :
  pdfPages w = Ok images ->
  runBatch w IMAGE_ONLY =
    let updated := (withStatus done ∘ pageOf) <$> images in
    ({| appState :=
          match writeOutcome w with None => COMPLETED | Some _ => ERROR end;
        slides := updated;
        progress := (0%nat, length images);
        errorMessage :=
          match writeOutcome w with
          | None => None
          | Some _ => Some "Failed to generate PowerPoint file."
          end;
        mode := IMAGE_ONLY |},
     fst (generateImagePptx (writeOutcome w) updated) ++
     match writeOutcome w with None => [] | Some e => [EvErrorLogged e] end).
Proof.
  intros H. unfold runBatch, handleFileAccepted. rewrite H.
  cbn [setAppState setError setSlides setProgress initialApp fst mode].
  unfold createSimplePptx.
  change (map (withStatus done) (map _ images))
    with (withStatus done <$> (pageOf <$> images)).
  rewrite <- list_fmap_compose, length_fmap.
  cbv zeta.
  rewrite generateImagePptx_run.
  destruct (writeOutcome w); cbn; rewrite ?app_nil_r; reflexivity.
Qed.

Lemma originalImage_analyzedSlide w i p :
  originalImage (analyzedSlide w i p) = originalImage p.
Proof.
  unfold analyzedSlide. destruct (gemini w i (originalImage p)); reflexivity.
Qed.

Lemma sinkOps_analysisLogs w images :
  sinkOps (concat (imap (fun i img => analysisLog w i (pageOf img)) images))
    = [].
Proof.
  rewrite sinkOps_concat, fmap_imap.
  induction images as [|img images IH] using rev_ind; [reflexivity |].
  rewrite imap_app, concat_app, IH. cbn.
  unfold analysisLog. destruct (gemini w _ _); reflexivity.
Qed.

Lemma retained_spec s :
  retained s = true <-> status s = done /\ exists sd, analysis s = Some sd.
Proof.
  unfold retained. rewrite andb_true_iff. split.
  - intros [Hs Ha]. split.
    + destruct (status s); try discriminate. reflexivity.
    + destruct (analysis s) as [sd|]; [eauto | discriminate].
  - intros [Hs (sd & Ha)]. rewrite Hs, Ha. auto.
Qed.

Lemma attempt_ops w valid :
  sinkOps (fst (if (length valid =? 0)%nat then throw NoSlidesAnalyzed
                else generatePptx (imageLoad w) (writeOutcome w) valid)) =
    if (length valid =? 0)%nat then []
    else [NewPptx; SetAuthor "SlideShifter App";
          SetCompany "Made with Gemini"; SetTitle "Converted Presentation"] ++
         concat (imap (fun k s =>
                         sinkOps (fst (assembleSlide (imageLoad w k) s)))
                      valid) ++
         [WriteFile "Converted_Presentation_"].
Proof.
  destruct (length valid =? 0)%nat; [reflexivity |].
  rewrite generatePptx_run. cbn [fst].
  rewrite !sinkOps_app, sinkOps_concat, fmap_imap. reflexivity.
Qed.

Lemma sinkOps_error_log (o : Res unit) :
  sinkOps (match o with Ok _ => [] | Throw e => [EvErrorLogged e] end) = [].
Proof. destruct o; reflexivity. Qed.

(** C2. The batch keeps one slide per page, at the position of the page and
    with its image; in AI_EXTRACT mode every page is analysed, whatever
    happened to the pages before it, and the presentation is made of the
    slides that are [done] with an analysis, one slide each, in the order
    of the pages.  A slide in [error] or without analysis is not among
    them. *)
Theorem batch_preserves_page_order w images :
  pdfPages w = Ok images ->
  (forall m,
     length (slides (fst (runBatch w m))) = length images /\
     originalImage <$> slides (fst (runBatch w m)) = images) /\
  let r := runBatch w AI_EXTRACT in
  let valid := List.filter retained (slides (fst r)) in
  slides (fst r) = imap (fun i img => analyzedSlide w i (pageOf img)) images /\
  sinkOps (snd r) =
    (if (length valid =? 0)%nat then []
     else [NewPptx; SetAuthor "SlideShifter App";
           SetCompany "Made with Gemini"; SetTitle "Converted Presentation"] ++
          concat (imap (fun k s =>
                          sinkOps (fst (assembleSlide (imageLoad w k) s)))
                       valid) ++
          [WriteFile "Converted_Presentation_"]) /\
  (forall k s, valid !! k = Some s ->
     status s = done /\
     exists sd rest,
       analysis s = Some sd /\
       sinkOps (fst (assembleSlide (imageLoad w k) s)) = AddSlide :: rest /\
       ~ In AddSlide rest) /\
  (forall s, status s = error \/ analysis s = None -> ~ In s valid).
Proof.
  intros Hpages.
  assert (Himg : originalImage <$>
                   imap (fun i img => analyzedSlide w i (pageOf img)) images
                 = images).
  { rewrite fmap_imap.
    rewrite (imap_ext _ (const id) images).
    - rewrite imap_const. apply list_fmap_id.
    - intros i img _. cbn. apply originalImage_analyzedSlide. }
  split.
  - intros m. destruct m.
    + rewrite (runBatch_ai w images Hpages). cbn [fst slides].
      split; [| exact Himg].
      rewrite <- Himg at 2. rewrite length_fmap. reflexivity.
    + rewrite (runBatch_image w images Hpages). cbn [fst slides].
      split; [apply length_fmap |].
      rewrite <- list_fmap_compose. apply list_fmap_id.
  - rewrite (runBatch_ai w images Hpages). cbn [fst snd slides].
    set (valid := List.filter retained
                    (imap (fun i img => analyzedSlide w i (pageOf img)) images)).
    split; [reflexivity |]. split; [| split].
    + rewrite !sinkOps_app, sinkOps_analysisLogs, sinkOps_error_log,
        app_nil_r.
      apply attempt_ops.
    + intros k s Hk.
      assert (Hin : In s valid).
      { apply list_elem_of_In, list_elem_of_lookup. eauto. }
      apply filter_In in Hin. destruct Hin as [_ Hret].
      apply retained_spec in Hret. destruct Hret as [Hdone (sd & Ha)].
      split; [exact Hdone |].
      destruct (assembleSlide_ops (imageLoad w k) s sd Ha)
        as (rest & Hops & Hrest).
      exists sd. eexists. split; [exact Ha |]. split; [exact Hops |].
      rewrite Forall_forall in Hrest.
      intros Hin. apply in_app_or in Hin. destruct Hin as [Hin | Hin].
      * destruct (backgroundColor sd) as [c|]; [| contradiction].
        destruct (truthy c); [| contradiction].
        destruct Hin as [Hin | []]. discriminate.
      * apply (Hrest AddSlide). apply list_elem_of_In. exact Hin.
    + intros s Hbad Hin.
      apply filter_In in Hin. destruct Hin as [_ Hret].
      apply retained_spec in Hret. destruct Hret as [Hdone (sd & Ha)].
      destruct Hbad as [Hbad | Hbad]; congruence.
Qed.

Lemma batch_preserves_page_order_witness :
  originalImage <$> slides (fst (runBatch sampleWorld AI_EXTRACT))
    = ["page-1"; "page-2"].
Proof.
  destruct (batch_preserves_page_order sampleWorld ["page-1"; "page-2"]
              eq_refl) as [Hall _].
  apply (Hall AI_EXTRACT).
Defined.

(** C3. In AI_EXTRACT mode, when no slide is [done] with an analysis after
    the loop (as when every analysis fails), the batch ends in ERROR by
    [NoSlidesAnalyzed] and the presentation writer is never called: the
    events of the run are the console lines of the failed analyses and the
    one of the error.  Otherwise [generatePptx] runs on the slides that are
    left, of which there is at least one. *)
Theorem no_slide_analyzed_fails_batch w images :
  pdfPages w = Ok images ->
  let r := runBatch w AI_EXTRACT in
  let valid := List.filter retained (slides (fst r)) in
  let analysisLogs :=
    concat (imap (fun i img => analysisLog w i (pageOf img)) images) in
  (valid = [] ->
   appState (fst r) = ERROR /\
   sinkOps (snd r) = [] /\
   snd r = analysisLogs ++ [EvErrorLogged NoSlidesAnalyzed]) /\
  (valid <> [] ->
   snd r = analysisLogs ++
           fst (generatePptx (imageLoad w) (writeOutcome w) valid) ++
           match writeOutcome w with
           | None => []
           | Some e => [EvErrorLogged e]
           end) /\
  ((forall i img, images !! i = Some img -> exists e, gemini w i img = Throw e)
   -> valid = []).
Proof.
  intros Hpages.
  rewrite (runBatch_ai w images Hpages). cbn [fst snd slides appState].
  set (valid := List.filter retained
                  (imap (fun i img => analyzedSlide w i (pageOf img)) images)).
  set (logs := concat (imap (fun i img => analysisLog w i (pageOf img)) images)).
  split; [| split].
  - intros Hnone. rewrite Hnone. cbn.
    split; [reflexivity |]. split; [| reflexivity].
    rewrite sinkOps_app. unfold logs. rewrite sinkOps_analysisLogs.
    reflexivity.
  - intros Hsome.
    destruct valid as [|s valid'] eqn:Hv; [contradiction |].
    cbn [length Nat.eqb]. rewrite generatePptx_run. cbn [fst snd].
    destruct (writeOutcome w); reflexivity.
  - intros Hfail.
    destruct valid as [|s valid'] eqn:Hv; [reflexivity |].
    assert (Hin : In s valid) by (rewrite Hv; left; reflexivity).
    apply filter_In in Hin. destruct Hin as [Hin Hret].
    apply list_elem_of_In, elem_of_lookup_imap in Hin.
    destruct Hin as (i & img & -> & Hi).
    destruct (Hfail i img Hi) as (e & He).
    unfold retained, analyzedSlide in Hret. cbn in Hret.
    rewrite He in Hret. discriminate.
Qed.

Lemma no_slide_analyzed_fails_batch_witness :
  appState (fst (runBatch failingWorld AI_EXTRACT)) = ERROR /\
  sinkOps (snd (runBatch failingWorld AI_EXTRACT)) = [].
Proof.
  pose proof (no_slide_analyzed_fails_batch failingWorld
                ["page-1"; "page-2"; "page-3"] eq_refl) as H.
  cbv zeta in H. destruct H as [Hnone _].
  destruct (Hnone eq_refl) as (Hstate & Hops & _).
  split; assumption.
Defined.

Lemma In_sinkOps op t : In (EvSink op) t <-> In op (sinkOps t).
Proof.
  unfold sinkOps. rewrite in_flat_map. split.
  - intros H. exists (EvSink op). split; [exact H | left; reflexivity].
  - intros (e & He & Hop). destruct e; cbn in Hop; try contradiction.
    destruct Hop as [-> | []]. exact He.
Qed.

Lemma generatePptx_writes il outcome l :
  In (EvSink (WriteFile "Converted_Presentation_"))
     (fst (generatePptx il outcome l)).
Proof.
  rewrite generatePptx_run. cbn [fst].
  apply in_or_app. right. apply in_or_app. right. left. reflexivity.
Qed.

Lemma generateImagePptx_writes outcome l :
  In (EvSink (WriteFile "Converted_Presentation_Img_"))
     (fst (generateImagePptx outcome l)).
Proof.
  rewrite generateImagePptx_run. cbn [fst].
  apply in_or_app. right. apply in_or_app. right. left. reflexivity.
Qed.

Lemma generatePptx_result il outcome l :
  snd (generatePptx il outcome l) =
    match outcome with None => Ok tt | Some e => Throw e end.
Proof. rewrite generatePptx_run. reflexivity. Qed.

(** C8, as the code has it.  A run ends in COMPLETED or in ERROR, and in
    COMPLETED exactly when [writeFile] was called and its promise resolved.
    It ends in ERROR when the document cannot be read, when [writeFile]
    rejects, and in AI_EXTRACT mode when no slide is left to assemble, as
    for a document without pages.  The message shown distinguishes the
    unreadable document from the two other failures, which share one
    message; these two differ by the error written to the console. *)
Theorem batch_outcome w m :
  let r := runBatch w m in
  let wrote := exists p, In (EvSink (WriteFile p)) (snd r) in
  (appState (fst r) = COMPLETED \/ appState (fst r) = ERROR) /\
  (appState (fst r) = COMPLETED <-> wrote /\ writeOutcome w = None) /\
  (appState (fst r) = COMPLETED -> errorMessage (fst r) = None) /\
  (forall e, pdfPages w = Throw e ->
     appState (fst r) = ERROR /\
     errorMessage (fst r) =
       Some "Failed to process PDF. Please try a simpler file." /\
     snd r = [EvErrorLogged e]) /\
  (forall e, wrote -> writeOutcome w = Some e ->
     appState (fst r) = ERROR /\
     errorMessage (fst r) = Some "Failed to generate PowerPoint file." /\
     last (snd r) = Some (EvErrorLogged e)) /\
  (forall images, m = AI_EXTRACT -> pdfPages w = Ok images ->
     List.filter retained (slides (fst r)) = [] ->
     appState (fst r) = ERROR /\
     errorMessage (fst r) = Some "Failed to generate PowerPoint file." /\
     last (snd r) = Some (EvErrorLogged NoSlidesAnalyzed)) /\
  (m = AI_EXTRACT -> pdfPages w = Ok [] ->
     appState (fst r) = ERROR /\
     last (snd r) = Some (EvErrorLogged NoSlidesAnalyzed)).
Proof.
  intros r wrote. subst wrote r.
  destruct (pdfPages w) as [images|e0] eqn:Hpages.
  - destruct m.
    + (* AI_EXTRACT *)
      rewrite (runBatch_ai w images Hpages).
      cbn [fst snd slides appState errorMessage].
      set (valid := List.filter retained
             (imap (fun i img => analyzedSlide w i (pageOf img)) images)).
      set (logs := concat (imap (fun i img => analysisLog w i (pageOf img))
                                images)).
      destruct valid as [|s valid'] eqn:Hvalid.
      * (* no slide left: NoSlidesAnalyzed *)
        cbn [length Nat.eqb throw fst snd app].
        assert (Hnowrite : ~ exists p,
                  In (EvSink (WriteFile p))
                     (logs ++ [EvErrorLogged NoSlidesAnalyzed])).
        { intros (p & Hin). apply In_sinkOps in Hin.
          rewrite sinkOps_app in Hin. unfold logs in Hin.
          rewrite sinkOps_analysisLogs in Hin. exact Hin. }
        split; [right; reflexivity |].
        split; [split; [discriminate | intros [Hw _]; contradiction] |].
        split; [discriminate |].
        split; [discriminate |].
        split; [intros e Hw; contradiction |].
        split; intros; (split; [reflexivity |]);
          try (split; [reflexivity |]); apply last_snoc.
      * (* the presentation is built and written *)
        assert (Hne : (length (s :: valid') =? 0)%nat = false) by reflexivity.
        rewrite Hne, generatePptx_result.
        assert (Hwrote : exists p,
                  In (EvSink (WriteFile p))
                     (logs ++
                      fst (generatePptx (imageLoad w) (writeOutcome w)
                                        (s :: valid')) ++
                      match
                        match writeOutcome w with
                        | None => Ok tt
                        | Some e => Throw e
                        end
                      with
                      | Ok _ => []
                      | Throw e => [EvErrorLogged e]
                      end)).
        { exists "Converted_Presentation_".
          apply in_or_app. right. apply in_or_app. left.
          apply generatePptx_writes. }
        split; [destruct (writeOutcome w); auto |].
        split; [destruct (writeOutcome w); split; try discriminate; auto;
                intros [_ ?]; discriminate |].
        split; [destruct (writeOutcome w); [discriminate | reflexivity] |].
        split; [discriminate |].
        split.
        { intros e _ He. rewrite He. cbv beta iota.
          split; [reflexivity |]. split; [reflexivity |].
          rewrite !app_assoc. apply last_snoc. }
        split; [intros images' _ Himg Hnone; discriminate |].
        intros _ Himg. injection Himg as ->. discriminate.
    + (* IMAGE_ONLY *)
      rewrite (runBatch_image w images Hpages).
      cbn [fst snd slides appState errorMessage].
      assert (Hwrote : exists p,
                In (EvSink (WriteFile p))
                   (fst (generateImagePptx (writeOutcome w)
                           ((withStatus done ∘ pageOf) <$> images)) ++
                    match writeOutcome w with
                    | None => []
                    | Some e => [EvErrorLogged e]
                    end)).
      { exists "Converted_Presentation_Img_".
        apply in_or_app. left. apply generateImagePptx_writes. }
      split; [destruct (writeOutcome w); auto |].
      split; [destruct (writeOutcome w); split; try discriminate; auto;
              intros [_ ?]; discriminate |].
      split; [destruct (writeOutcome w); [discriminate | reflexivity] |].
      split; [discriminate |].
      split.
      { intros e _ He. rewrite He. cbv beta iota.
        split; [reflexivity |]. split; [reflexivity |].
        apply last_snoc. }
      split; intros; discriminate.
  - (* the document cannot be read *)
    rewrite (runBatch_unreadable w m e0 Hpages).
    cbn [fst snd slides appState errorMessage].
    assert (Hnowrite : ~ exists p,
              In (EvSink (WriteFile p)) [EvErrorLogged e0]).
    { intros (p & [Hin | []]). discriminate. }
    split; [right; reflexivity |].
    split; [split; [discriminate | intros [Hw _]; contradiction] |].
    split; [discriminate |].
    split; [intros e He; injection He as ->; auto |].
    split; [intros e Hw; contradiction |].
    split; intros; discriminate.
Qed.

(** C8, as the claim has it, fails twice.  The run in which every analysis
    fails and the run in which the file cannot be written end in ERROR
    with the same message; and a document without pages, converted in
    IMAGE_ONLY mode, ends in COMPLETED. *)
Lemma failure_reasons_coincide :
  appState (fst (runBatch failingWorld AI_EXTRACT)) = ERROR /\
  appState (fst (runBatch writeFailWorld AI_EXTRACT)) = ERROR /\
  errorMessage (fst (runBatch failingWorld AI_EXTRACT)) =
    errorMessage (fst (runBatch writeFailWorld AI_EXTRACT)) /\
  pdfPages emptyWorld = Ok [] /\
  appState (fst (runBatch emptyWorld IMAGE_ONLY)) = COMPLETED.
Proof. vm_compute. repeat split. Qed.

(** ** Scenarios *)

(** Two pages in AI_EXTRACT mode, the analysis of the second one failing:
    the run completes, the second slide is in [error], and the
    presentation has one slide. *)
Example second_analysis_fails :
  let r := runBatch sampleWorld AI_EXTRACT in
  appState (fst r) = COMPLETED /\
  status <$> slides (fst r) = [done; error] /\
  List.filter (fun op => match op with AddSlide => true | _ => false end)
              (sinkOps (snd r)) = [AddSlide] /\
  In (EvErrorAnalyzing 2 (External "No response from Gemini.")) (snd r).
Proof. vm_compute. repeat split. tauto. Qed.

(** The sample slide has three figures, the second with an inverted box:
    two images are placed, at the origins of the first and of the third
    box, and the second box is reported on the console. *)
Example second_figure_inverted :
  let t := fst (assembleSlide sampleLoad sampleSlide) in
  flat_map (fun op => match op with
                      | AddImage _ x y _ _ => [(x, y)]
                      | _ => []
                      end) (sinkOps t)
    = [(Pct 10, Pct 10); (Pct 50, Pct 50)] /\
  In (EvWarnInvalidBox (10, 60, 40, 50)%Q) t.
Proof. vm_compute. split; [reflexivity | tauto]. Qed.

(** Three pages whose analyses all fail: the events of the run are four
    console lines. *)
Example every_analysis_fails :
  snd (runBatch failingWorld AI_EXTRACT) =
    [EvErrorAnalyzing 1 (External "API Key is missing");
     EvErrorAnalyzing 2 (External "API Key is missing");
     EvErrorAnalyzing 3 (External "API Key is missing");
     EvErrorLogged NoSlidesAnalyzed].
Proof. reflexivity. Qed.

(** [replace('#', '')] removes one ['#'], the first, wherever it stands. *)
Example replaceHash_samples :
  replaceHash "#FFFFFF" = "FFFFFF" /\
  replaceHash "FFFFFF" = "FFFFFF" /\
  replaceHash "FF#F#F" = "FFF#F".
Proof. repeat split. Qed.

(** * Further properties *)

(** ** cropImage, the builders and the text of a slide *)



Lemma sinkOps_fmap_EvSink ops : sinkOps (EvSink <$> ops) = ops.
Proof.
  induction ops as [|op ops IH]; [reflexivity |].
  rewrite fmap_cons. cbn. f_equal. exact IH.
Qed.

Lemma image_slides_events images :
  concat (imap (fun (_ : nat) slideItem =>
                  [EvSink AddSlide;
                   EvSink (AddImage (PageRaster (originalImage slideItem))
                             (Inch 0) (Inch 0) (Pct 100) (Pct 100))])
               ((withStatus done ∘ pageOf) <$> images))
  = EvSink <$> flat_map fullBleed images.
Proof.
  rewrite imap_fmap.
  induction images as [|img images IH]; [reflexivity |].
  rewrite imap_cons. cbn [concat flat_map]. rewrite fmap_app.
  f_equal. exact IH.
Qed.

(** X5. In IMAGE_ONLY mode the events of a run are calls on the
    presentation writer: the presentation with its author and title, for
    every page in order a slide with the page as a full-size image, and
    [writeFile]; then the console line of the error if the write fails.
    No page is analysed or cropped; the slides all end [done] without
    analysis, and [progress] stays at 0 of the number of pages. *)
Theorem image_mode_copies_pages w images :
  pdfPages w = Ok images ->
  let r := runBatch w IMAGE_ONLY in
  slides (fst r) =
    (fun img => {| originalImage := img; analysis := None; status := done |})
      <$> images /\
  progress (fst r) = (0%nat, length images) /\
  snd r =
    (EvSink <$>
       ([NewPptx; SetAuthor "SlideShifter App";
         SetTitle "Converted Presentation (Image Mode)"] ++
        flat_map fullBleed images ++
        [WriteFile "Converted_Presentation_Img_"])) ++
    match writeOutcome w with
    | None => []
    | Some e => [EvErrorLogged e]
    end.
Proof.
  intros Hpages. rewrite (runBatch_image w images Hpages).
  cbn [fst snd slides progress].
  split; [reflexivity |]. split; [reflexivity |].
  rewrite generateImagePptx_run. cbn [fst].
  rewrite image_slides_events, !fmap_app. reflexivity.
Qed.

Lemma filter_isAddSlide_after fg ops :
  Forall (afterBackground fg) ops -> List.filter isAddSlide ops = [].
Proof.
  induction 1 as [|op ops Hop _ IH]; [reflexivity |].
  cbn. destruct op; cbn in *; try contradiction; exact IH.
Qed.

Lemma slide_count_one il s :
  length (List.filter isAddSlide (sinkOps (fst (assembleSlide il s)))) =
    if isPresent (analysis s) then 1%nat else 0%nat.
Proof.
  destruct (analysis s) as [sd|] eqn:Ha.
  - destruct (assembleSlide_ops il s sd Ha) as (rest & -> & Hrest).
    cbn [isPresent List.filter isAddSlide]. cbn [length]. f_equal.
    rewrite List.filter_app, (filter_isAddSlide_after _ _ Hrest), app_nil_r.
    destruct (backgroundColor sd) as [c|]; [| reflexivity].
    destruct (truthy c); reflexivity.
  - unfold assembleSlide. rewrite Ha. reflexivity.
Qed.

Lemma slide_count_all slides : forall il : nat -> nat -> LoadResult,
  length (List.filter isAddSlide
            (sinkOps (concat (imap (fun k s => fst (assembleSlide (il k) s))
                                   slides)))) =
    length (List.filter (fun s => isPresent (analysis s)) slides).
Proof.
  induction slides as [|s slides IH]; intros il; [reflexivity |].
  rewrite imap_cons. cbn [concat List.filter].
  rewrite sinkOps_app, List.filter_app, length_app, slide_count_one.
  specialize (IH (fun k => il (S k))). cbn beta in IH.
  unfold compose. rewrite IH.
  destruct (isPresent (analysis s)); reflexivity.
Qed.

(** X6. [generatePptx] adds one slide for every item that has an
    analysis, whatever the status of the item, ends with [writeFile], and
    resolves or rejects as [writeFile] does, whatever happens to the
    figures. *)
Theorem generatePptx_slide_per_analysis il outcome processedSlides :
  let ops := sinkOps (fst (generatePptx il outcome processedSlides)) in
  length (List.filter isAddSlide ops) =
    length (List.filter (fun s => isPresent (analysis s)) processedSlides) /\
  last ops = Some (WriteFile "Converted_Presentation_") /\
  snd (generatePptx il outcome processedSlides) =
    match outcome with None => Ok tt | Some e => Throw e end.
Proof.
  cbv zeta. rewrite generatePptx_run. cbn [fst snd].
  split; [| split; [| reflexivity]].
  - rewrite !sinkOps_app, !List.filter_app, !length_app, slide_count_all.
    cbn. lia.
  - rewrite !sinkOps_app, !app_assoc. apply last_snoc.
Qed.

Lemma textBlocks_app a b : textBlocks (a ++ b) = textBlocks a ++ textBlocks b.
Proof. unfold textBlocks. apply flat_map_app. Qed.

Lemma addFigure_no_text browser img figure :
  textBlocks (sinkOps (fst (addFigure browser img figure))) = [] /\
  Forall noEmptyRuns (sinkOps (fst (addFigure browser img figure))).
Proof.
  pose proof (addFigure_ops browser img figure) as H.
  destruct (boundingBox figure) as [[[ymin xmin] ymax] xmax].
  destruct (figureFails browser img figure).
  - destruct H as [-> _]. split; [reflexivity | constructor].
  - destruct H as (data & _ & ->). split; [reflexivity |].
    repeat constructor. intros opts. discriminate.
Qed.

Lemma addFigures_no_text il img sd :
  textBlocks (sinkOps (fst (addFigures il img sd))) = [] /\
  Forall noEmptyRuns (sinkOps (fst (addFigures il img sd))).
Proof.
  destruct (figures sd) as [figs|] eqn:Hfigs.
  - rewrite (addFigures_run il img sd figs Hfigs). cbn [fst].
    clear Hfigs. revert il.
    induction figs as [|f figs IH]; intros il;
      [split; [reflexivity | constructor] |].
    rewrite imap_cons. cbn [concat].
    rewrite sinkOps_app, textBlocks_app.
    destruct (addFigure_no_text (il 0%nat) img f) as [-> Hf].
    destruct (IH (fun j => il (S j))) as [IHt IHf].
    split; [exact IHt |]. apply Forall_app. split; [exact Hf | exact IHf].
  - unfold addFigures. rewrite Hfigs. split; [reflexivity | constructor].
Qed.

Lemma take_drop_nonempty {A} (k : nat) (c : list A) :
  (if (0 <? length (take k c))%nat then take k c else []) ++
  (if (0 <? length (drop k c))%nat then drop k c else []) = c.
Proof.
  rewrite <- (take_drop k c) at 5.
  destruct (take k c), (drop k c); reflexivity.
Qed.

Lemma addContentText_blocks sd fg :
  textBlocks (sinkOps (fst (addContentText sd fg))) =
    match layoutType sd with
    | SECTION_HEADER =>
      match content sd with
      | [] => []
      | _ => [joinLines (content sd)]
      end
    | _ => content sd
    end /\
  Forall noEmptyRuns (sinkOps (fst (addContentText sd fg))).
Proof.
  unfold addContentText.
  destruct (layoutType sd).
  1, 2, 4: destruct (content sd) as [|b bs]; cbn;
    [split; [reflexivity | constructor]
    | split; [rewrite app_nil_r; reflexivity
             | repeat constructor; intros opts; discriminate]].
  - (* TWO_COLUMN *)
    set (mid := ceilHalf (length (content sd))).
    unfold sliceTo, sliceFrom.
    rewrite seq_ok by auto with nothrow. cbn [fst].
    rewrite sinkOps_app, textBlocks_app.
    pose proof (take_drop_nonempty mid (content sd)) as Hc.
    destruct (take mid (content sd)) as [|l ls] eqn:Hl;
      destruct (drop mid (content sd)) as [|r rs] eqn:Hr;
      cbn in *; rewrite ?app_nil_r in *;
      (split; [exact Hc | repeat constructor; intros opts; discriminate]).
  - (* SECTION_HEADER *)
    destruct (content sd) as [|b bs]; cbn;
      [split; [reflexivity | constructor]
      | split; [reflexivity | repeat constructor; intros opts; discriminate]].
Qed.

(** X7. The text of a slide is the text of its analysis, once and in
    order: the title if it is not empty, then the blocks of the content
    (joined into one block for SECTION_HEADER); and no text box is made of
    an empty list of blocks. *)
Theorem slide_text_is_analysis_text il slide sd :
  analysis slide = Some sd ->
  let ops := sinkOps (fst (assembleSlide il slide)) in
  textBlocks ops =
    (if truthy (title sd) then [title sd] else []) ++
    match layoutType sd with
    | SECTION_HEADER =>
      match content sd with
      | [] => []
      | _ => [joinLines (content sd)]
      end
    | _ => content sd
    end /\
  (forall opts, ~ In (AddText (Runs []) opts) ops).
Proof.
  intros Ha ops. unfold ops.
  rewrite (assembleSlide_run il slide sd Ha). cbn [fst].
  change (sinkOps (EvSink AddSlide :: ?t)) with (AddSlide :: sinkOps t).
  rewrite !sinkOps_app.
  destruct (addContentText_blocks sd (fgColorOf sd)) as [Hc Hcf].
  destruct (addFigures_no_text il (originalImage slide) sd) as [Hf Hff].
  assert (Hbg : textBlocks (sinkOps (fst (applyBackground sd))) = [] /\
                Forall noEmptyRuns (sinkOps (fst (applyBackground sd)))).
  { unfold applyBackground. destruct (backgroundColor sd) as [c|];
      [destruct (truthy c) |]; cbn;
      (split; [reflexivity | repeat constructor; intros opts; discriminate]). }
  assert (Hti : textBlocks (sinkOps (fst (addTitle sd (fgColorOf sd)))) =
                (if truthy (title sd) then [title sd] else []) /\
                Forall noEmptyRuns
                       (sinkOps (fst (addTitle sd (fgColorOf sd))))).
  { unfold addTitle. destruct (truthy (title sd)); cbn;
      (split; [reflexivity | repeat constructor; intros opts; discriminate]). }
  assert (Hno : textBlocks (sinkOps (fst (addSpeakerNotes sd))) = [] /\
                Forall noEmptyRuns (sinkOps (fst (addSpeakerNotes sd)))).
  { unfold addSpeakerNotes. destruct (notes sd) as [n|];
      [destruct (truthy n) |]; cbn;
      (split; [reflexivity | repeat constructor; intros opts; discriminate]). }
  destruct Hbg as [Hbg Hbgf], Hti as [Hti Htif], Hno as [Hno Hnof].
  split.
  - change (textBlocks (AddSlide :: ?t)) with (textBlocks t).
    rewrite !textBlocks_app, Hbg, Hti, Hc, Hf, Hno, !app_nil_r.
    reflexivity.
  - intros opts Hin. destruct Hin as [Hin | Hin]; [discriminate |].
    assert (Hall : Forall noEmptyRuns
              (sinkOps (fst (applyBackground sd)) ++
               sinkOps (fst (addTitle sd (fgColorOf sd))) ++
               sinkOps (fst (addContentText sd (fgColorOf sd))) ++
               sinkOps (fst (addFigures il (originalImage slide) sd)) ++
               sinkOps (fst (addSpeakerNotes sd)))).
    { repeat (apply Forall_app; split); assumption. }
    rewrite Forall_forall in Hall.
    refine (Hall (AddText (Runs []) opts) _ opts eq_refl).
    apply list_elem_of_In. exact Hin.
Qed.

(** ** The loop of analyzeSlides and the outcome of the batch *)



Lemma cropImage_builder_events browser img box :
  Forall builderEvent (fst (cropImage browser img box)).
Proof.
  destruct box as [[[ymin xmin] ymax] xmax].
  crop_cases browser; repeat constructor.
Qed.

Lemma addFigure_builder_events browser img figure :
  Forall builderEvent (fst (addFigure browser img figure)).
Proof.
  rewrite addFigure_run.
  destruct (boundingBox figure) as [[[ymin xmin] ymax] xmax].
  destruct (Qle_bool xmax xmin || Qle_bool ymax ymin).
  - repeat constructor.
  - pose proof (cropImage_builder_events browser img (ymin, xmin, ymax, xmax))
      as Hcrop.
    destruct (cropImage browser img (ymin, xmin, ymax, xmax)) as [t [data|e]];
      cbn [fst] in *; apply Forall_app; split; auto; repeat constructor.
Qed.

Lemma assembleSlide_builder_events il slide :
  Forall builderEvent (fst (assembleSlide il slide)).
Proof.
  destruct (analysis slide) as [sd|] eqn:Ha.
  - rewrite (assembleSlide_run il slide sd Ha). cbn [fst].
    constructor; [exact I |].
    repeat (apply Forall_app; split).
    + unfold applyBackground. destruct (backgroundColor sd); sink_cases.
    + unfold addTitle. sink_cases.
    + unfold addContentText. destruct (layoutType sd); sink_cases.
    + destruct (figures sd) as [figs|] eqn:Hfigs.
      * rewrite (addFigures_run il _ sd figs Hfigs). cbn [fst].
        apply Forall_concat, Forall_forall. intros t Ht.
        apply elem_of_lookup_imap in Ht.
        destruct Ht as (j & figure & -> & _).
        apply addFigure_builder_events.
      * unfold addFigures. rewrite Hfigs. constructor.
    + unfold addSpeakerNotes. destruct (notes sd); sink_cases.
  - unfold assembleSlide. rewrite Ha. constructor.
Qed.

Lemma generatePptx_builder_events il outcome processedSlides :
  Forall builderEvent (fst (generatePptx il outcome processedSlides)).
Proof.
  rewrite generatePptx_run. cbn [fst].
  repeat (apply Forall_app; split); try (repeat constructor).
  apply Forall_concat, Forall_forall. intros t Ht.
  apply elem_of_lookup_imap in Ht. destruct Ht as (k & s & -> & _).
  apply assembleSlide_builder_events.
Qed.

Lemma retained_analyzedSlide w i img :
  retained (analyzedSlide w i (pageOf img)) =
    match gemini w i img with Ok (Some _) => true | _ => false end.
Proof.
  unfold analyzedSlide, retained. cbn.
  destruct (gemini w i img) as [[a|]|e]; reflexivity.
Qed.

(** X9. After a run in AI_EXTRACT mode on readable pages the progress is
    at the number of pages and there is one slide per page, in page order,
    none left [pending] or [analyzing]: the slide of a page whose analysis
    call resolved is [done] and carries what the call resolved with, which
    is no analysis when that is [null]; the slide of a page whose call
    rejected is in [error] without an analysis. *)
Theorem analyzed_slides_are_final w images :
  pdfPages w = Ok images ->
  let r := runBatch w AI_EXTRACT in
  progress (fst r) = (length images, length images) /\
  length (slides (fst r)) = length images /\
  forall i img, images !! i = Some img ->
    exists s,
      slides (fst r) !! i = Some s /\ originalImage s = img /\
      match gemini w i img with
      | Ok a => status s = done /\ analysis s = a
      | Throw _ => status s = error /\ analysis s = None
      end.
Proof.
  intros Hpages. rewrite (runBatch_ai w images Hpages).
  cbn [fst slides progress]. split; [reflexivity |].
  split; [apply length_imap |].
  intros i img Hi. rewrite list_lookup_imap, Hi. cbn [fmap option_fmap option_map].
  eexists. split; [reflexivity |].
  unfold analyzedSlide. cbn.
  destruct (gemini w i img) as [a|e]; cbn; auto.
Qed.

(** X10. A run in AI_EXTRACT mode writes [Error analyzing slide n] with
    the error [e] to the console exactly when the analysis of page [n],
    counted from 1, failed with [e]. *)
Theorem analysis_failures_are_logged w images n e :
  pdfPages w = Ok images ->
  In (EvErrorAnalyzing n e) (snd (runBatch w AI_EXTRACT)) <->
  exists i img,
    n = (i + 1)%nat /\ images !! i = Some img /\ gemini w i img = Throw e.
Proof.
  intros Hpages. rewrite (runBatch_ai w images Hpages). cbn [snd].
  set (valid := List.filter retained _).
  set (attempt := if (length valid =? 0)%nat then throw NoSlidesAnalyzed
                  else generatePptx (imageLoad w) (writeOutcome w) valid).
  assert (Hattempt : ~ In (EvErrorAnalyzing n e) (fst attempt)).
  { intros Hin. unfold attempt in Hin.
    destruct (length valid =? 0)%nat; [destruct Hin |].
    pose proof (generatePptx_builder_events (imageLoad w) (writeOutcome w)
                  valid) as Hall.
    rewrite Forall_forall in Hall.
    apply (Hall (EvErrorAnalyzing n e)). apply list_elem_of_In. exact Hin. }
  assert (Hlast : ~ In (EvErrorAnalyzing n e)
                       match snd attempt with
                       | Ok _ => []
                       | Throw err => [EvErrorLogged err]
                       end).
  { destruct (snd attempt); [intros [] | intros [H | []]; discriminate]. }
  rewrite !in_app_iff.
  split.
  - intros [Hin | [Hin | Hin]]; [| contradiction | contradiction].
    apply in_concat in Hin. destruct Hin as (t & Ht & Hin).
    apply list_elem_of_In, elem_of_lookup_imap in Ht.
    destruct Ht as (i & img & -> & Hi).
    exists i, img. unfold analysisLog in Hin. cbn in Hin.
    destruct (gemini w i img) as [a|err]; [destruct Hin |].
    destruct Hin as [Hin | []]. injection Hin as -> ->.
    auto.
  - intros (i & img & -> & Hi & He). left.
    apply in_concat.
    exists [EvErrorAnalyzing (i + 1) e]. split; [| left; reflexivity].
    apply list_elem_of_In, elem_of_lookup_imap.
    exists i, img. split; [| exact Hi].
    unfold analysisLog. cbn. rewrite He. reflexivity.
Qed.

Lemma retained_analyzed_filter w images : forall k,
  List.filter retained
    (imap (fun i img => analyzedSlide w (k + i) (pageOf img)) images) = [] <->
  forall i img a, images !! i = Some img ->
    gemini w (k + i)%nat img <> Ok (Some a).
Proof.
  induction images as [|img0 images IH]; intros k.
  - split; [intros _ i img a Hi; discriminate | reflexivity].
  - rewrite imap_cons. cbn [List.filter].
    rewrite Nat.add_0_r, retained_analyzedSlide.
    assert (Hshift : imap ((fun i img => analyzedSlide w (k + i) (pageOf img))
                           ∘ S) images =
                     imap (fun i img => analyzedSlide w (S k + i) (pageOf img))
                          images).
    { apply imap_ext. intros i img _. cbn. f_equal. lia. }
    rewrite Hshift. split.
    + intros H i img a Hi.
      destruct i as [|i]; cbn in Hi.
      * injection Hi as <-. rewrite Nat.add_0_r. intros H0.
        rewrite H0 in H. discriminate.
      * replace (k + S i)%nat with (S k + i)%nat by lia.
        apply (proj1 (IH (S k))); [| exact Hi].
        destruct (gemini w k img0) as [[a0|]|e]; [discriminate | exact H ..].
    + intros H.
      assert (Htail : List.filter retained
                (imap (fun i img => analyzedSlide w (S k + i) (pageOf img))
                      images) = []).
      { apply (IH (S k)). intros i img a Hi.
        replace (S k + i)%nat with (k + S i)%nat by lia.
        apply H. exact Hi. }
      pose proof (H 0%nat img0) as H0. rewrite Nat.add_0_r in H0.
      destruct (gemini w k img0) as [[a0|]|e]; [| exact Htail ..].
      exfalso. apply (H0 a0); reflexivity.
Qed.

Lemma valid_slides_counted valid : forall il : nat -> nat -> LoadResult,
  Forall (fun s => retained s = true) valid ->
  length (List.filter isAddSlide
            (sinkOps (concat (imap (fun k s => fst (assembleSlide (il k) s))
                                   valid)))) = length valid.
Proof.
  intros il Hall. rewrite slide_count_all.
  f_equal. induction Hall as [|s valid Hs _ IH]; [reflexivity |].
  cbn. apply retained_spec in Hs. destruct Hs as [_ (sd & ->)].
  cbn. f_equal. exact IH.
Qed.

(** X11. A run in AI_EXTRACT mode on readable pages ends in COMPLETED
    exactly when the analysis call of at least one page resolved with an
    analysis (a call that resolves with [null] does not count) and
    [writeFile] resolved; and the presentation has as many slides as there
    are slides [done] with an analysis. *)
Theorem ai_batch_completes_iff w images :
  pdfPages w = Ok images ->
  let r := runBatch w AI_EXTRACT in
  (appState (fst r) = COMPLETED <->
   (exists i img a,
      images !! i = Some img /\ gemini w i img = Ok (Some a)) /\
   writeOutcome w = None) /\
  length (List.filter isAddSlide (sinkOps (snd r))) =
    length (List.filter retained (slides (fst r))).
Proof.
  intros Hpages. rewrite (runBatch_ai w images Hpages).
  cbn [fst snd slides appState].
  pose proof (retained_analyzed_filter w images 0) as Hnone.
  cbn [Nat.add] in Hnone.
  set (valid := List.filter retained
         (imap (fun i img => analyzedSlide w i (pageOf img)) images)) in *.
  assert (Hretained : Forall (fun s => retained s = true) valid).
  { apply Forall_forall. intros s Hs. apply list_elem_of_In in Hs.
    apply filter_In in Hs. tauto. }
  split.
  - destruct valid as [|s valid'] eqn:Hv.
    + cbn. split; [discriminate |].
      intros [(i & img & a & Hi & Ha) _].
      destruct (proj1 Hnone eq_refl i img a Hi Ha).
    + cbn [length Nat.eqb]. rewrite generatePptx_result.
      assert (Hsome : exists i img a,
                images !! i = Some img /\ gemini w i img = Ok (Some a)).
      { assert (Hin : In s (List.filter retained
                  (imap (fun i img => analyzedSlide w i (pageOf img)) images)))
          by (fold valid; rewrite Hv; left; reflexivity).
        apply filter_In in Hin. destruct Hin as [Hin Hret].
        apply list_elem_of_In, elem_of_lookup_imap in Hin.
        destruct Hin as (i & img & -> & Hi).
        rewrite retained_analyzedSlide in Hret.
        destruct (gemini w i img) as [[a|]|e] eqn:Ha; try discriminate.
        eauto. }
      destruct (writeOutcome w); split; try discriminate; auto.
      intros [_ ?]; discriminate.
  - rewrite !sinkOps_app, sinkOps_analysisLogs, sinkOps_error_log, app_nil_r.
    cbn [app]. rewrite attempt_ops.
    destruct (length valid =? 0)%nat eqn:Hlen.
    + apply Nat.eqb_eq in Hlen. rewrite Hlen. reflexivity.
    + assert (E : concat (imap (fun k s =>
                  sinkOps (fst (assembleSlide (imageLoad w k) s))) valid) =
                sinkOps (concat (imap (fun k s =>
                  fst (assembleSlide (imageLoad w k) s)) valid)))
        by (rewrite sinkOps_concat, fmap_imap; reflexivity).
      rewrite E, !List.filter_app, !length_app.
      rewrite (valid_slides_counted valid (imageLoad w) Hretained).
      cbn. lia.
Qed.

(** ** convertPdfToImages *)

Lemma renderPages_ok page n : forall i images l,
  renderPages page i n images = Ok l <->
  exists rest,
    l = images ++ rest /\ length rest = n /\
    forall k, (k < n)%nat ->
      exists d, page (i + k)%nat = Rendered d /\ rest !! k = Some d.
Proof.
  induction n as [|n IH]; intros i images l; cbn [renderPages].
  - split.
    + intros H. injection H as <-. exists []. rewrite app_nil_r.
      repeat split; auto. intros k Hk. lia.
    + intros (rest & -> & Hlen & _). destruct rest; [| discriminate].
      rewrite app_nil_r. reflexivity.
  - destruct (page i) as [d| |e] eqn:Hpage.
    + rewrite IH. split.
      * intros (rest & -> & Hlen & Hall). exists (d :: rest).
        rewrite <- app_assoc. repeat split; cbn; auto.
        intros [|k] Hk.
        -- rewrite Nat.add_0_r. eauto.
        -- destruct (Hall k ltac:(lia)) as (d' & Hd' & Hk').
           exists d'. split; [| exact Hk'].
           replace (i + S k)%nat with (S i + k)%nat by lia. exact Hd'.
      * intros (rest & -> & Hlen & Hall).
        destruct (Hall 0%nat ltac:(lia)) as (d0 & Hd0 & Hr0).
        rewrite Nat.add_0_r, Hpage in Hd0. injection Hd0 as <-.
        destruct rest as [|r rest]; [discriminate |].
        cbn in Hr0. injection Hr0 as ->.
        exists rest. rewrite <- app_assoc. repeat split; cbn in *; auto.
        intros k Hk. destruct (Hall (S k) ltac:(lia)) as (d' & Hd' & Hk').
        exists d'. split; [| exact Hk'].
        match goal with
        | |- page ?a = _ => replace a with (i + S k)%nat by lia
        end.
        exact Hd'.
    + split; [discriminate |].
      intros (rest & _ & _ & Hall).
      destruct (Hall 0%nat ltac:(lia)) as (d0 & Hd0 & _).
      rewrite Nat.add_0_r in Hd0. congruence.
    + split; [discriminate |].
      intros (rest & _ & _ & Hall).
      destruct (Hall 0%nat ltac:(lia)) as (d0 & Hd0 & _).
      rewrite Nat.add_0_r in Hd0. congruence.
Qed.

Lemma renderPages_first_failure page m : forall i n images,
  (m < n)%nat ->
  (forall k, (k < m)%nat -> exists d, page (i + k)%nat = Rendered d) ->
  renderPages page i n images =
    match page (i + m)%nat with
    | Rendered d => renderPages page i n images
    | NoContext => Throw (noContextError (i + m))
    | PageThrows e => Throw e
    end.
Proof.
  induction m as [|m IH]; intros i n images Hm Hbefore.
  - rewrite Nat.add_0_r. destruct n as [|n]; [lia |].
    cbn [renderPages]. destruct (page i); reflexivity.
  - destruct n as [|n]; [lia |].
    destruct (Hbefore 0%nat ltac:(lia)) as (d & Hd).
    rewrite Nat.add_0_r in Hd.
    replace (i + S m)%nat with (S i + m)%nat by lia.
    destruct (page (S i + m)%nat) eqn:Hfail; [reflexivity | |];
      cbn [renderPages]; rewrite Hd;
      rewrite (IH (S i) n _ ltac:(lia)); try (rewrite Hfail; reflexivity);
      intros k Hk; destruct (Hbefore (S k) ltac:(lia)) as (d' & Hd');
      exists d'; replace (S i + k)%nat with (i + S k)%nat by lia; exact Hd'.
Qed.

(** X12. [convertPdfToImages] returns a list exactly when every page of
    the document is rendered; the list has one image per page, and the
    image at position [k] is the rendering of page [k + 1]. *)
Theorem convertPdfToImages_all_pages numPages page l :
  convertPdfToImages (Ok numPages) page = Ok l <->
  length l = numPages /\
  forall k, (k < numPages)%nat ->
    exists d, page (S k) = Rendered d /\ l !! k = Some d.
Proof.
  unfold convertPdfToImages. rewrite renderPages_ok. cbn [app]. split.
  - intros (rest & -> & Hlen & Hall). split; [exact Hlen | exact Hall].
  - intros [Hlen Hall]. exists l. auto.
Qed.

(** X13. When page [j] is the first that is not rendered,
    [convertPdfToImages] rejects with the error of that page, whatever the
    pages after it would give: the error that names page [j] when the
    canvas gives no context, the error of pdf.js otherwise. *)
Theorem convertPdfToImages_first_failure numPages page j :
  (1 <= j <= numPages)%nat ->
  (forall i, (1 <= i < j)%nat -> exists d, page i = Rendered d) ->
  (page j = NoContext ->
   convertPdfToImages (Ok numPages) page = Throw (noContextError j)) /\
  (forall e, page j = PageThrows e ->
   convertPdfToImages (Ok numPages) page = Throw e).
Proof.
  intros [Hj1 Hjn] Hbefore. unfold convertPdfToImages.
  assert (Hrun := renderPages_first_failure page (j - 1) 1 numPages []
                    ltac:(lia)).
  replace (1 + (j - 1))%nat with j in Hrun by lia.
  rewrite Hrun.
  - split; [intros -> | intros e ->]; reflexivity.
  - intros k Hk. apply Hbefore. lia.
Qed.

Lemma convertPdfToImages_bad_page numPages page j :
  (1 <= j <= numPages)%nat -> (forall d, page j <> Rendered d) ->
  exists e, convertPdfToImages (Ok numPages) page = Throw e.
Proof.
  intros [Hj1 Hjn] Hbad.
  destruct (convertPdfToImages (Ok numPages) page) as [l|e] eqn:Hrun;
    [| eauto].
  unfold convertPdfToImages in Hrun. apply renderPages_ok in Hrun.
  destruct Hrun as (rest & _ & _ & Hall).
  destruct (Hall (j - 1)%nat ltac:(lia)) as (d & Hd & _).
  replace (1 + (j - 1))%nat with j in Hd by lia.
  elim (Hbad d Hd).
Qed.

(** X14. One page that cannot be rendered aborts the conversion in both
    modes: the run ends in ERROR with the message of the unreadable
    document, keeps no slide, and its only event is the console line of the
    error. *)
Theorem bad_page_aborts_batch numPages page g load write m j :
  (1 <= j <= numPages)%nat -> (forall d, page j <> Rendered d) ->
  let r := runBatch (serviceWorld (Ok numPages) page g load write) m in
  appState (fst r) = ERROR /\
  errorMessage (fst r) =
    Some "Failed to process PDF. Please try a simpler file." /\
  slides (fst r) = [] /\
  exists e, snd r = [EvErrorLogged e].
Proof.
  intros Hj Hbad r.
  destruct (convertPdfToImages_bad_page numPages page j Hj Hbad) as (e & He).
  unfold r.
  rewrite (runBatch_unreadable (serviceWorld (Ok numPages) page g load write)
             m e He).
  cbn. eauto.
Qed.

(** ** analyzeSlideImage *)

Lemma stripPrefix_spec p : forall s rest,
  stripPrefix p s = Some rest <-> s = (p ++ rest)%string.
Proof.
  induction p as [|a p IH]; intros s rest; cbn.
  - split; [intros H; injection H as ->; reflexivity | intros ->; reflexivity].
  - destruct s as [|b s]; [split; discriminate |].
    destruct (Ascii.eqb_spec a b) as [-> | Hne].
    + rewrite IH. split; [intros ->; reflexivity | intros H; injection H; auto].
    + split; [discriminate | intros H; injection H; congruence].
Qed.

Lemma truthy_spec s : truthy s = true <-> s <> "".
Proof.
  unfold truthy. destruct (String.eqb_spec s ""); cbn; split;
    congruence.
Qed.

(** X15. The data sent to the model is the image without its data-URL
    header: the header of a PNG, JPEG or JPG data URL is removed from the
    start of the string, once; a string that starts with none of the three
    headers is sent as it is. *)
Theorem cleanBase64_strips_one_header s :
  cleanBase64 ("data:image/png;base64," ++ s) = s /\
  cleanBase64 ("data:image/jpeg;base64," ++ s) = s /\
  cleanBase64 ("data:image/jpg;base64," ++ s) = s /\
  (cleanBase64 s = s \/
   exists header,
     In header ["data:image/png;base64,"; "data:image/jpeg;base64,";
                "data:image/jpg;base64,"] /\
     s = (header ++ cleanBase64 s)%string) /\
  ((forall rest, s <> ("data:image/png;base64," ++ rest)%string) ->
   (forall rest, s <> ("data:image/jpeg;base64," ++ rest)%string) ->
   (forall rest, s <> ("data:image/jpg;base64," ++ rest)%string) ->
   cleanBase64 s = s).
Proof.
  split; [reflexivity |]. split; [reflexivity |]. split; [reflexivity |].
  unfold cleanBase64.
  destruct (stripPrefix "data:image/png;base64," s) as [r|] eqn:Hpng.
  { apply stripPrefix_spec in Hpng. split.
    - right. eexists. split; [left; reflexivity | exact Hpng].
    - intros H. elim (H r Hpng). }
  destruct (stripPrefix "data:image/jpeg;base64," s) as [r|] eqn:Hjpeg.
  { apply stripPrefix_spec in Hjpeg. split.
    - right. eexists. split; [right; left; reflexivity | exact Hjpeg].
    - intros _ H. elim (H r Hjpeg). }
  destruct (stripPrefix "data:image/jpg;base64," s) as [r|] eqn:Hjpg.
  { apply stripPrefix_spec in Hjpg. split.
    - right. eexists. split; [right; right; left; reflexivity | exact Hjpg].
    - intros _ _ H. elim (H r Hjpg). }
  split; [left; reflexivity | reflexivity].
Qed.

(** X16. [analyzeSlideImage] returns [a], an analysis or [null], exactly
    when the API key is set, the model answers with a non-empty text, and
    the text parses to [a];
    the model is called only when the key is set, and with the cleaned
    image data; and a rejection of the call is passed on as it is. *)
Theorem analyzeSlideImage_result g img :
  (forall a,
     snd (analyzeSlideImage g img) = Ok a <->
     (exists key, apiKey g = Some key /\ key <> "") /\
     exists text,
       generateContent g (cleanBase64 img) = Ok (Some text) /\
       text <> "" /\ jsonParse g text = Some a) /\
  (forall data, In (SvGenerateContent data) (fst (analyzeSlideImage g img)) ->
     data = cleanBase64 img /\ exists key, apiKey g = Some key /\ key <> "") /\
  (forall e, (exists key, apiKey g = Some key /\ key <> "") ->
     generateContent g (cleanBase64 img) = Throw e ->
     snd (analyzeSlideImage g img) = Throw e).
Proof.
  unfold analyzeSlideImage.
  destruct (apiKey g) as [key|] eqn:Hkey.
  2:{ split; [| split].
      - intros a. split; [discriminate |].
        intros [(k & Hk & _) _]. discriminate.
      - intros data [].
      - intros e (k & Hk & _). discriminate. }
  destruct (truthy key) eqn:Htk.
  2:{ assert (key = "").
      { destruct (String.eqb_spec key "") as [-> | Hne]; [reflexivity |].
        apply truthy_spec in Hne. congruence. }
      subst key. split; [| split].
      - intros a. split; [discriminate |].
        intros [(k & Hk & Hne) _]. congruence.
      - intros data [].
      - intros e (k & Hk & Hne). congruence. }
  apply truthy_spec in Htk.
  assert (Hk : exists k, Some key = Some k /\ k <> "") by eauto.
  destruct (generateContent g (cleanBase64 img)) as [[text|]|e] eqn:Hgen.
  - destruct (truthy text) eqn:Htt.
    + apply truthy_spec in Htt.
      destruct (jsonParse g text) as [parsed|] eqn:Hparse; cbn [fst snd].
      * split; [| split].
        -- intros a. split.
           ++ intros H. injection H as <-. split; [exact Hk |]. eauto.
           ++ intros [_ (t & Ht & _ & Hp)]. injection Ht as <-. congruence.
        -- intros data [H | []]. injection H as <-. auto.
        -- intros e _ H. discriminate.
      * split; [| split].
        -- intros a. split; [discriminate |].
           intros [_ (t & Ht & _ & Hp)]. injection Ht as <-. congruence.
        -- intros data [H | [H | []]]; [| discriminate].
           injection H as <-. auto.
        -- intros e _ H. discriminate.
    + assert (text = "").
      { destruct (String.eqb_spec text "") as [-> | Hne]; [reflexivity |].
        apply truthy_spec in Hne. congruence. }
      subst text. cbn [fst snd]. split; [| split].
      * intros a. split; [discriminate |].
        intros [_ (t & Ht & Hne & _)]. injection Ht as <-. congruence.
      * intros data [H | []]. injection H as <-. auto.
      * intros e _ H. discriminate.
  - cbn [fst snd]. split; [| split].
    + intros a. split; [discriminate |].
      intros [_ (t & Ht & _)]. discriminate.
    + intros data [H | []]. injection H as <-. auto.
    + intros e _ H. discriminate.
  - cbn [fst snd]. split; [| split].
    + intros a. split; [discriminate |].
      intros [_ (t & Ht & _)]. discriminate.
    + intros data [H | []]. injection H as <-. auto.
    + intros e' _ H. injection H as ->. reflexivity.
Qed.

Lemma analyzeSlideImage_no_key g img :
  apiKey g = None \/ apiKey g = Some "" ->
  analyzeSlideImage g img = ([], Throw (External "API Key is missing")).
Proof. unfold analyzeSlideImage. intros [-> | ->]; reflexivity. Qed.

(** X17. Without API key a run in AI_EXTRACT mode cannot produce a file:
    whatever the pages, every slide ends in [error] without analysis, the
    presentation writer is never called, and the run ends in ERROR by
    [NoSlidesAnalyzed]. *)
Theorem missing_api_key_fails_ai_batch pdf page g load write images :
  (forall i, apiKey (g i) = None \/ apiKey (g i) = Some "") ->
  convertPdfToImages pdf page = Ok images ->
  let r := runBatch (serviceWorld pdf page g load write) AI_EXTRACT in
  appState (fst r) = ERROR /\
  errorMessage (fst r) = Some "Failed to generate PowerPoint file." /\
  length (slides (fst r)) = length images /\
  Forall (fun s => status s = error /\ analysis s = None) (slides (fst r)) /\
  sinkOps (snd r) = [] /\
  last (snd r) = Some (EvErrorLogged NoSlidesAnalyzed).
Proof.
  intros Hkey Hpages r. unfold r.
  set (w := serviceWorld pdf page g load write).
  assert (Hgem : forall i img,
            gemini w i img = Throw (External "API Key is missing")).
  { intros i img. cbn. rewrite (analyzeSlideImage_no_key (g i) img (Hkey i)).
    reflexivity. }
  rewrite (runBatch_ai w images Hpages).
  cbn [fst snd slides appState errorMessage].
  assert (Hnone : List.filter retained
            (imap (fun i img => analyzedSlide w i (pageOf img)) images) = []).
  { apply (retained_analyzed_filter w images 0). intros i img a _.
    rewrite Hgem. discriminate. }
  rewrite Hnone. cbn [length Nat.eqb throw fst snd app].
  split; [reflexivity |]. split; [reflexivity |].
  split; [rewrite length_imap; reflexivity |].
  split; [| split].
  - apply Forall_forall. intros s Hs.
    apply elem_of_lookup_imap in Hs. destruct Hs as (i & img & -> & _).
    unfold analyzedSlide. cbn [pageOf originalImage]. rewrite Hgem.
    split; reflexivity.
  - rewrite sinkOps_app, sinkOps_analysisLogs. reflexivity.
  - apply last_snoc.
Qed.

(** ** Dropzone *)

Lemma validateAndProcess_run file st :
  validateAndProcess file st =
    if negb (String.eqb (fileType file) "application/pdf") then
      ({| isDragging := isDragging st;
          dropError := Some "Please upload a valid PDF file." |}, None)
    else if (20971520 <? fileSize file)%Z then
      ({| isDragging := isDragging st;
          dropError := Some "File size exceeds 20MB limit." |}, None)
    else ({| isDragging := isDragging st; dropError := None |}, Some file).
Proof.
  unfold validateAndProcess.
  destruct (negb (String.eqb (fileType file) "application/pdf"));
    [reflexivity |].
  change (20 * 1024 * 1024)%Z with 20971520%Z.
  destruct (20971520 <? fileSize file)%Z; reflexivity.
Qed.

Lemma validateAndProcess_accepted file st f :
  snd (validateAndProcess file st) = Some f <->
  f = file /\ fileType file = "application/pdf" /\
  (fileSize file <= 20971520)%Z.
Proof.
  rewrite validateAndProcess_run.
  destruct (String.eqb_spec (fileType file) "application/pdf") as [Ht | Ht];
    cbn [negb].
  - destruct (Z.ltb_spec 20971520 (fileSize file)); cbn [snd].
    + split; [discriminate | intros (_ & _ & ?); lia].
    + split; [intros H'; injection H' as <-; auto | intros (-> & _); auto].
  - cbn [snd]. split; [discriminate | intros (_ & ? & _); contradiction].
Qed.

(** X18. [validateAndProcess] hands a file on exactly when its type is
    [application/pdf] and its size is at most 20 * 1024 * 1024 bytes, this
    size included, and then clears the message; a file of another type gets
    the message about PDF files whatever its size, a PDF that is too large
    the message about the limit; the dragging flag is left alone. *)
Theorem validateAndProcess_accepts_iff file st :
  let st' := fst (validateAndProcess file st) in
  let handed := snd (validateAndProcess file st) in
  (handed = Some file <->
   fileType file = "application/pdf" /\ (fileSize file <= 20971520)%Z) /\
  (handed = Some file \/ handed = None) /\
  (handed = Some file -> dropError st' = None) /\
  (fileType file <> "application/pdf" ->
   dropError st' = Some "Please upload a valid PDF file.") /\
  (fileType file = "application/pdf" -> (20971520 < fileSize file)%Z ->
   dropError st' = Some "File size exceeds 20MB limit.") /\
  isDragging st' = isDragging st.
Proof.
  cbv zeta. rewrite validateAndProcess_run.
  destruct (String.eqb_spec (fileType file) "application/pdf") as [Ht | Ht];
    cbn [negb].
  - destruct (Z.ltb_spec 20971520 (fileSize file)) as [Hbig | Hok];
      cbn [fst snd dropError isDragging].
    + split; [split; [discriminate | intros [_ ?]; lia] |].
      split; [right; reflexivity |].
      split; [discriminate |].
      split; [intros; contradiction |].
      split; reflexivity.
    + split; [split; [auto | reflexivity] |].
      split; [left; reflexivity |].
      split; [reflexivity |].
      split; [intros; contradiction |].
      split; [intros; lia | reflexivity].
  - cbn [fst snd dropError isDragging].
    split; [split; [discriminate | intros [? _]; contradiction] |].
    split; [right; reflexivity |].
    split; [discriminate |].
    split; [reflexivity |].
    split; [intros; contradiction | reflexivity].
Qed.

Lemma handleDrop_accepted isProcessing files st f :
  snd (handleDrop isProcessing files st) = Some f <->
  isProcessing = false /\
  (exists others, files = Some (f :: others)) /\
  fileType f = "application/pdf" /\ (fileSize f <= 20971520)%Z.
Proof.
  unfold handleDrop. destruct isProcessing.
  - cbn. split; [discriminate | intros [? _]; discriminate].
  - destruct files as [[|file others]|].
    + cbn. split; [discriminate | intros (_ & (o & Ho) & _); discriminate].
    + rewrite validateAndProcess_accepted. split.
      * intros (-> & Ht & Hs). repeat split; eauto.
      * intros (_ & (o & Ho) & Ht & Hs). injection Ho as -> ->. auto.
    + cbn. split; [discriminate | intros (_ & (o & Ho) & _); discriminate].
Qed.

(** X19. A drop hands on a file exactly when the component is not
    processing and the first of the dropped files is a PDF within the size
    limit: the other files are not looked at.  A drop always ends the
    dragging state, and while processing it leaves the message as it
    is. *)
Theorem handleDrop_hands_first_file isProcessing files st f :
  (snd (handleDrop isProcessing files st) = Some f <->
   isProcessing = false /\
   (exists others, files = Some (f :: others)) /\
   fileType f = "application/pdf" /\ (fileSize f <= 20971520)%Z) /\
  isDragging (fst (handleDrop isProcessing files st)) = false /\
  (isProcessing = true ->
   dropError (fst (handleDrop isProcessing files st)) = dropError st).
Proof.
  split; [apply handleDrop_accepted |].
  unfold handleDrop. destruct isProcessing.
  - cbn. auto.
  - split; [| discriminate].
    destruct files as [[|file others]|]; try reflexivity.
    rewrite validateAndProcess_run.
    destruct (negb _); [reflexivity |].
    destruct (_ <? _)%Z; reflexivity.
Qed.

(** ** The Dropzone inside the application, and reset *)

Lemma runBatch_terminal w m :
  (appState (fst (runBatch w m)) = COMPLETED \/
   appState (fst (runBatch w m)) = ERROR) /\
  mode (fst (runBatch w m)) = m.
Proof.
  destruct (pdfPages w) as [images|e] eqn:Hpages.
  - destruct m.
    + rewrite (runBatch_ai w images Hpages). cbn.
      split; [| reflexivity].
      match goal with |- context [match ?x with _ => _ end] => destruct x end;
        auto.
    + rewrite (runBatch_image w images Hpages). cbn.
      split; [| reflexivity]. destruct (writeOutcome w); auto.
  - rewrite (runBatch_unreadable w m e Hpages). cbn. auto.
Qed.

(** X20. A drop on the application starts [handleFileAccepted] when the
    application is in IDLE and the first dropped file is a PDF within the
    size limit; in every other case the state of the application and its
    events are left as they are. *)
Theorem dropOnApp_starts_iff w files dz r :
  let accepted :=
    appState (fst r) = IDLE /\
    exists f others,
      files = Some (f :: others) /\
      fileType f = "application/pdf" /\ (fileSize f <= 20971520)%Z in
  (accepted -> snd (dropOnApp w files dz r) = handleFileAccepted w r) /\
  (~ accepted -> snd (dropOnApp w files dz r) = r).
Proof.
  cbv zeta. unfold dropOnApp.
  destruct (appState (fst r)) eqn:Hstate;
    try (split; [intros [? _]; discriminate | reflexivity]).
  destruct (handleDrop false files dz) as [dz' handed] eqn:Hdrop.
  pose proof (handleDrop_accepted false files dz) as Hacc.
  rewrite Hdrop in Hacc. cbn [snd] in Hacc.
  destruct handed as [f|]; cbn [snd].
  - split; [reflexivity |]. intros Hno. exfalso. apply Hno.
    split; [reflexivity |].
    destruct (proj1 (Hacc f) eq_refl) as (_ & (o & Ho) & Ht & Hs). eauto.
  - split; [| reflexivity].
    intros [_ (f & o & Hf & Ht & Hs)].
    assert (None = Some f) by (apply Hacc; eauto). discriminate.
Qed.

(** X21. After a run a drop changes nothing, whatever is dropped.
    [handleReset] brings the application back to its initial state, with
    the mode of the run, and a valid file dropped after it starts
    [handleFileAccepted] from that state. *)
Theorem drops_wait_for_reset w m w' files dz :
  let r := runBatch w m in
  dropOnApp w' files dz r = (dz, r) /\
  fst (handleReset r) = initialApp m /\
  snd (handleReset r) = snd r /\
  forall f others,
    fileType f = "application/pdf" -> (fileSize f <= 20971520)%Z ->
    snd (dropOnApp w' (Some (f :: others)) dz (handleReset r)) =
      handleFileAccepted w' (initialApp m, snd r).
Proof.
  intros r.
  destruct (runBatch_terminal w m) as [Hstate Hmode]. fold r in Hstate, Hmode.
  assert (Hreset : handleReset r = (initialApp m, snd r)).
  { unfold handleReset. destruct r as [st tr]. cbn in *. rewrite Hmode.
    reflexivity. }
  split; [| split; [| split]].
  - unfold dropOnApp. destruct Hstate as [-> | ->]; reflexivity.
  - rewrite Hreset. reflexivity.
  - rewrite Hreset. reflexivity.
  - intros f others Ht Hs. rewrite Hreset. unfold dropOnApp.
    cbn [fst appState initialApp].
    destruct (handleDrop false (Some (f :: others)) dz) as [dz' handed] eqn:Hd.
    pose proof (handleDrop_accepted false (Some (f :: others)) dz f) as Hacc.
    rewrite Hd in Hacc. cbn [snd] in Hacc.
    assert (Hh : handed = Some f) by (apply Hacc; eauto).
    rewrite Hh. reflexivity.
Qed.

(** ** SlidePreview *)


(** X23. After a run in IMAGE_ONLY mode on readable pages every card shows
    the check mark together with the line "Waiting for analysis...". *)
Theorem cards_after_image_copy w images :
  pdfPages w = Ok images ->
  Forall (fun s =>
            statusIcon (status s) = CheckCircle /\
            cardBody s = Placeholder "Waiting for analysis...")
         (slides (fst (runBatch w IMAGE_ONLY))).
Proof.
  intros Hpages. rewrite (runBatch_image w images Hpages). cbn [fst slides].
  apply Forall_forall. intros s Hs.
  apply list_elem_of_fmap in Hs. destruct Hs as (img & -> & _).
  split; reflexivity.
Qed.

(** ** Instances of the further properties *)


Lemma image_mode_copies_pages_witness :
  slides (fst (runBatch sampleWorld IMAGE_ONLY)) =
    [ {| originalImage := "page-1"; analysis := None; status := done |};
      {| originalImage := "page-2"; analysis := None; status := done |} ].
Proof.
  destruct (image_mode_copies_pages sampleWorld ["page-1"; "page-2"] eq_refl)
    as [Hslides _].
  exact Hslides.
Defined.

Lemma slide_text_is_analysis_text_witness :
  textBlocks (sinkOps (fst (assembleSlide sampleLoad sampleSlide))) =
    ["Intro"; "one"; "two"; "three"].
Proof.
  destruct (slide_text_is_analysis_text sampleLoad sampleSlide sampleContent
              eq_refl) as [Htext _].
  exact Htext.
Defined.


Lemma analyzed_slides_are_final_witness :
  exists s,
    slides (fst (runBatch nullWorld AI_EXTRACT)) !! 1%nat = Some s /\
    originalImage s = "page-2" /\ status s = done /\ analysis s = None.
Proof.
  destruct (analyzed_slides_are_final nullWorld
              ["page-1"; "page-2"; "page-3"] eq_refl) as (_ & _ & Hslide).
  destruct (Hslide 1%nat "page-2" eq_refl) as (s & Hs & Himg & Hst).
  exists s. split; [exact Hs |]. split; [exact Himg | exact Hst].
Defined.

Lemma analysis_failures_are_logged_witness :
  In (EvErrorAnalyzing 2 (External "No response from Gemini."))
     (snd (runBatch sampleWorld AI_EXTRACT)).
Proof.
  apply (analysis_failures_are_logged sampleWorld ["page-1"; "page-2"] 2
           (External "No response from Gemini.") eq_refl).
  exists 1%nat, "page-2". repeat split.
Defined.

Lemma ai_batch_completes_iff_witness :
  appState (fst (runBatch sampleWorld AI_EXTRACT)) = COMPLETED.
Proof.
  destruct (ai_batch_completes_iff sampleWorld ["page-1"; "page-2"] eq_refl)
    as [Hiff _].
  apply Hiff. split; [| reflexivity].
  exists 0%nat, "page-1", sampleContent. split; reflexivity.
Defined.

Lemma convertPdfToImages_first_failure_witness :
  convertPdfToImages (Ok 3%nat) samplePages =
    Throw (External "Could not get canvas context for page 2").
Proof.
  assert (Hj : (1 <= 2 <= 3)%nat) by lia.
  destruct (convertPdfToImages_first_failure 3 samplePages 2 Hj) as [Hctx _].
  - intros i Hi. assert (i = 1%nat) as -> by lia. eexists. reflexivity.
  - apply Hctx. reflexivity.
Defined.

Lemma bad_page_aborts_batch_witness :
  appState
    (fst (runBatch (serviceWorld (Ok 3%nat) samplePages (fun _ => sampleGemini)
                                 (fun _ => sampleLoad) None) IMAGE_ONLY))
    = ERROR.
Proof.
  assert (Hj : (1 <= 2 <= 3)%nat) by lia.
  assert (Hbad : forall d, samplePages 2 <> Rendered d)
    by (intros d; discriminate).
  apply (bad_page_aborts_batch 3 samplePages (fun _ => sampleGemini)
           (fun _ => sampleLoad) None IMAGE_ONLY 2 Hj Hbad).
Defined.

Lemma missing_api_key_fails_ai_batch_witness :
  sinkOps (snd (runBatch keylessWorld AI_EXTRACT)) = [].
Proof.
  assert (Hkey : forall i : nat,
            apiKey keylessGemini = None \/ apiKey keylessGemini = Some "")
    by (intros i; left; reflexivity).
  destruct (missing_api_key_fails_ai_batch (Ok 2%nat)
              (fun _ => Rendered "data:image/jpeg;base64,AAAA")
              (fun _ => keylessGemini) (fun _ => sampleLoad) None
              ["data:image/jpeg;base64,AAAA"; "data:image/jpeg;base64,AAAA"]
              Hkey eq_refl)
    as (_ & _ & _ & _ & Hops & _).
  exact Hops.
Defined.


Lemma cards_after_image_copy_witness :
  Forall (fun s =>
            statusIcon (status s) = CheckCircle /\
            cardBody s = Placeholder "Waiting for analysis...")
         (slides (fst (runBatch sampleWorld IMAGE_ONLY))).
Proof.
  apply (cards_after_image_copy sampleWorld ["page-1"; "page-2"] eq_refl).
Defined.

(** ** The layers of a slide *)

Lemma when_sink_kind (P : SinkOp -> Prop) b op :
  P op -> Forall P (sinkOps (fst (when b (sink op)))).
Proof. intros H. destruct b; repeat constructor. exact H. Qed.

Lemma addContentText_is_text sd fg :
  Forall isText (sinkOps (fst (addContentText sd fg))).
Proof.
  unfold addContentText.
  destruct (layoutType sd); try (apply when_sink_kind; exact I).
  rewrite seq_ok by (apply when_ok, sink_ok). cbn [fst].
  rewrite sinkOps_app. apply Forall_app.
  split; apply when_sink_kind; exact I.
Qed.

Lemma addFigures_is_image il img sd :
  Forall isImage (sinkOps (fst (addFigures il img sd))).
Proof.
  destruct (figures sd) as [figs|] eqn:Hfigs.
  - rewrite (addFigures_run il img sd figs Hfigs). cbn [fst].
    rewrite sinkOps_concat.
    apply Forall_concat, Forall_forall. intros ops Hops.
    apply list_elem_of_fmap in Hops. destruct Hops as (t & -> & Ht).
    apply elem_of_lookup_imap in Ht.
    destruct Ht as (j & figure & -> & _).
    pose proof (addFigure_ops (il j) img figure) as H.
    destruct (boundingBox figure) as [[[ymin xmin] ymax] xmax].
    destruct (figureFails (il j) img figure).
    + destruct H as [-> _]. constructor.
    + destruct H as (data & _ & ->). repeat constructor.
  - unfold addFigures. rewrite Hfigs. constructor.
Qed.

(** X24. The operations of a slide come in layers: the slide, its
    background if any, the text boxes, then the images of the figures, then
    the speaker notes if the analysis gives any; so the figures are placed
    over the text. *)
Theorem slide_operations_are_layered il slide sd :
  analysis slide = Some sd ->
  exists background texts images speakerNotes,
    sinkOps (fst (assembleSlide il slide)) =
      AddSlide :: background ++ texts ++ images ++ speakerNotes /\
    (background = [] \/ exists c, background = [SetBackground c]) /\
    Forall isText texts /\
    Forall isImage images /\
    speakerNotes =
      match notes sd with
      | Some n => if truthy n then [AddNotes n] else []
      | None => []
      end.
Proof.
  intros Ha.
  exists (sinkOps (fst (applyBackground sd))),
         (sinkOps (fst (addTitle sd (fgColorOf sd))) ++
          sinkOps (fst (addContentText sd (fgColorOf sd)))),
         (sinkOps (fst (addFigures il (originalImage slide) sd))),
         (sinkOps (fst (addSpeakerNotes sd))).
  split; [| split; [| split; [| split]]].
  - rewrite (assembleSlide_run il slide sd Ha). cbn [fst].
    change (sinkOps (EvSink AddSlide :: ?t)) with (AddSlide :: sinkOps t).
    rewrite !sinkOps_app, <- !app_assoc. reflexivity.
  - unfold applyBackground. destruct (backgroundColor sd) as [c|]; [| auto].
    destruct (truthy c); cbn; eauto.
  - apply Forall_app. split.
    + unfold addTitle. apply when_sink_kind. exact I.
    + apply addContentText_is_text.
  - apply addFigures_is_image.
  - unfold addSpeakerNotes. destruct (notes sd) as [n|]; [| reflexivity].
    destruct (truthy n); reflexivity.
Qed.

Lemma slide_operations_are_layered_witness :
  exists background texts images speakerNotes,
    sinkOps (fst (assembleSlide sampleLoad sampleSlide)) =
      AddSlide :: background ++ texts ++ images ++ speakerNotes /\
    (background = [] \/ exists c, background = [SetBackground c]) /\
    Forall isText texts /\
    Forall isImage images /\
    speakerNotes = [AddNotes "speaker notes"].
Proof.
  apply (slide_operations_are_layered sampleLoad sampleSlide sampleContent
           eq_refl).
Defined.
